(** * ddns-server: the record-update orchestrator

    A shallow embedding of the two request handlers of the repository,
    [update_record] of [src/api.py] (FastAPI) and [ResourceHandler.get] of
    [src/ddns-api/api.py] (Flask), with the properties of the specification
    that concern them.

    Python [str] values are modelled as [string]: the sequence of the UTF-8
    bytes of the text.  Every character the handlers inspect (space, quotes,
    dot, comma, hyphen, letters, digits, line feed) is ASCII, and an ASCII
    byte never occurs inside a multi-byte UTF-8 sequence, so stripping,
    replacing and matching on bytes agree with Python on code points. *)

From Stdlib Require Import ZArith Lia Bool Ascii.
From stdpp Require Import base list strings gmap.

Local Open Scope Z_scope.

(** ** Characters that the handlers treat specially *)

Definition LF : ascii := "010"%char.
Definition SPACE : ascii := "032"%char.
Definition DQUOTE : ascii := "034"%char.
Definition SQUOTE : ascii := "039"%char.
Definition COMMA : ascii := "044"%char.
Definition HYPHEN : ascii := "045"%char.
Definition DOT : ascii := "046"%char.
Definition BACKSLASH : ascii := "092"%char.

Definition nl : string := String LF EmptyString.

(** ** Python [str] primitives used by the sources *)

Module Py.

(** [bool(s)]: a string is truthy when it is not empty. *)
Definition truthy (s : string) : bool :=
  match s with EmptyString => false | String _ _ => true end.

(** Membership of a character in the [chars] argument of [strip]. *)
Fixpoint mem (c : ascii) (chars : string) : bool :=
  match chars with
  | EmptyString => false
  | String d chars' => if Ascii.eqb c d then true else mem c chars'
  end.

(** [s.lstrip(chars)], with the set of characters given as a predicate. *)
Fixpoint lstrip (p : ascii -> bool) (s : string) : string :=
  match s with
  | EmptyString => EmptyString
  | String c s' => if p c then lstrip p s' else s
  end.

(** [s.rstrip(chars)]: a character is dropped when everything after it is
    dropped and it is itself in the set. *)
Fixpoint rstrip (p : ascii -> bool) (s : string) : string :=
  match s with
  | EmptyString => EmptyString
  | String c s' =>
      match rstrip p s' with
      | EmptyString => if p c then EmptyString else String c EmptyString
      | r => String c r
      end
  end.

(** [s.strip(chars)]. *)
Definition strip (p : ascii -> bool) (s : string) : string :=
  rstrip p (lstrip p s).

(** [s.replace(old, new)] for a one-character [old]. *)
Fixpoint replace (old : ascii) (new : string) (s : string) : string :=
  match s with
  | EmptyString => EmptyString
  | String c s' =>
      if Ascii.eqb c old then new +:+ replace old new s'
      else String c (replace old new s')
  end.

(** [s.split(sep)] for a one-character [sep]: never the empty list. *)
Fixpoint split (sep : ascii) (s : string) : list string :=
  match s with
  | EmptyString => [EmptyString]
  | String c s' =>
      if Ascii.eqb c sep then EmptyString :: split sep s'
      else match split sep s' with
           | w :: ws => String c w :: ws
           | [] => [String c EmptyString]
           end
  end.

(** [sep.join(l)]. *)
Fixpoint join (sep : string) (l : list string) : string :=
  match l with
  | [] => EmptyString
  | [x] => x
  | x :: l' => x +:+ sep +:+ join sep l'
  end.

(** [all(p(c) for c in s)]. *)
Fixpoint all (p : ascii -> bool) (s : string) : bool :=
  match s with
  | EmptyString => true
  | String c s' => p c && all p s'
  end.

(** The ASCII white space removed by [str.strip()] without argument. *)
Definition isspace (c : ascii) : bool :=
  let n := nat_of_ascii c in
  ((9 <=? n) && (n <=? 13) || (28 <=? n) && (n <=? 32))%nat.

Definition isupper (c : ascii) : bool :=
  let n := nat_of_ascii c in ((65 <=? n) && (n <=? 90))%nat.
Definition islower (c : ascii) : bool :=
  let n := nat_of_ascii c in ((97 <=? n) && (n <=? 122))%nat.
Definition isdigit (c : ascii) : bool :=
  let n := nat_of_ascii c in ((48 <=? n) && (n <=? 57))%nat.
Definition isalnum (c : ascii) : bool := isupper c || islower c || isdigit c.

Fixpoint map (f : ascii -> ascii) (s : string) : string :=
  match s with
  | EmptyString => EmptyString
  | String c s' => String (f c) (map f s')
  end.

(** [s.upper()] and [s.lower()] on ASCII letters. *)
Definition upper : string -> string :=
  map (fun c => if islower c then ascii_of_nat (nat_of_ascii c - 32) else c).
Definition lower : string -> string :=
  map (fun c => if isupper c then ascii_of_nat (nat_of_ascii c + 32) else c).

(** [str(l)] for a list of strings that hold no quote, backslash or
    control character, which is what a validated host name is. *)
Definition repr_list (l : list string) : string :=
  "[" +:+ join ", " (List.map (fun s => "'" +:+ s +:+ "'") l) +:+ "]".

End Py.

(** ** Lines of a text *)

(** The text whose lines are [ls], each closed by a line feed. *)
Fixpoint unlines (ls : list string) : string :=
  match ls with
  | [] => EmptyString
  | l :: ls' => l +:+ nl +:+ unlines ls'
  end.

(** The lines of a text, as a reader taking one line-feed-terminated line at
    a time sees them; an unterminated last line counts when it is not empty. *)
Fixpoint lines (s : string) : list string :=
  match s with
  | EmptyString => []
  | String c s' =>
      if Ascii.eqb c LF then EmptyString :: lines s'
      else match lines s' with
           | l :: ls => String c l :: ls
           | [] => [String c EmptyString]
           end
  end.

(** ** Shared data: the file system and the external tool *)

(** What happened to the child process of one tool invocation. *)
Inductive Proc :=
  | SpawnFailed
  | Exited (returncode : Z) (stdout stderr : string).

(** The part of the world a handler touches: the files, by path, and the
    tool invocations made so far, each with its command line and with what
    the file named by its last argument held when the tool was started. *)
Record World := mkWorld {
  files : gmap string string;
  runs : list (list string * option string)
}.

Definition NSUPDATE : string := "/usr/bin/nsupdate".

(** ** [src/api.py] *)

Module Api.

Inductive RecordType := A | TXT.
Inductive MethodType := update | delete.

(** The [value] attribute of the two [str] enumerations. *)
Definition RecordType_value (t : RecordType) : string :=
  match t with A => "A" | TXT => "TXT" end.

Definition MethodType_value (m : MethodType) : string :=
  match m with update => "update" | delete => "delete" end.

Definition is_update (m : MethodType) : bool :=
  match m with update => true | delete => false end.

Record ApiResponse := mkApiResponse { success : bool; message : string }.

Inductive HTTPException :=
  | mkHTTPException (status_code : Z) (detail : string).

Definition HTTP_400_BAD_REQUEST : Z := 400.
Definition HTTP_500_INTERNAL_SERVER_ERROR : Z := 500.

(** [request.client.host], the peer address the transport reports; the
    transport is one that reports a peer ([request.client] is set). *)
Record Request := mkRequest { client_host : string }.

(** One label of the [HostType] pattern:
    [[a-zA-Z0-9]|[a-zA-Z0-9][a-zA-Z0-9\-]*[a-zA-Z0-9]]. *)
Definition label_char (c : ascii) : bool := Py.isalnum c || Ascii.eqb c HYPHEN.

Fixpoint ends_alnum (s : string) : bool :=
  match s with
  | EmptyString => false
  | String c EmptyString => Py.isalnum c
  | String _ s' => ends_alnum s'
  end.

Definition is_label (l : string) : bool :=
  match l with
  | EmptyString => false
  | String c _ => Py.isalnum c && Py.all label_char l && ends_alnum l
  end.

(** The [HostType] constraint: dot-separated labels, anchored at both ends
    of the string (the end anchor of the pattern engine behind [constr]
    matches at the very end only, not before a final line feed). *)
Definition HostType (h : string) : bool := forallb is_label (Py.split DOT h).

(** A handler computes in the world and returns or raises. *)
Inductive Result (T : Type) :=
  | Return (x : T)
  | Raise (e : HTTPException).
Arguments Return {T} x.
Arguments Raise {T} e.

Definition M (T : Type) : Type := World -> Result T * World.

Definition ret {T} (x : T) : M T := fun w => (Return x, w).
Definition raise {T} (e : HTTPException) : M T := fun w => (Raise e, w).
Definition bind {T U} (k : T -> M U) (m : M T) : M U :=
  fun w => match m w with
           | (Return x, w') => k x w'
           | (Raise e, w') => (Raise e, w')
           end.

#[export] Instance M_ret : MRet M := @ret.
#[export] Instance M_bind : MBind M := @bind.

(** [path.write_text(content)]: create or replace the file. *)
Definition write_text (path content : string) : M unit :=
  fun w => (Return tt, mkWorld (<[path := content]> (files w)) (runs w)).

Section Handler.

(** Process-wide configuration and the environment of the process:
    the environment variable ZONE (empty when unset), [RECORD_TTL],
    [tempfile.gettempdir()],
    whether [ipaddress.ip_address] accepts a string, and what the tool
    does when started with a command line on the current files. *)
Variable zone_env : string.
Variable RECORD_TTL : string.
Variable gettempdir : string.
Variable ip_address : string -> bool.
Variable subprocess_exec : list string -> gmap string string -> Proc.

Definition ZONE : string :=
  Py.strip (fun c => Py.mem c (String DOT (String SPACE EmptyString))) zone_env.

Definition is_valid_ip (address : string) : bool :=
  if ip_address address then true else false.

(** [asyncio.create_subprocess_exec] followed by [communicate]: the tool
    is started on the files as they are and its outcome is awaited. *)
Definition create_subprocess_exec (command : list string) : M Proc :=
  fun w =>
    let seen := files w !! List.last command EmptyString in
    (Return (subprocess_exec command (files w)),
     mkWorld (files w) (runs w ++ [(command, seen)])).

(** Line 122: the value stripped of surrounding spaces, double quotes and
    single quotes when it is given and not empty, the empty string
    otherwise. *)
Definition strip_value (value : option string) : string :=
  match value with
  | Some v =>
      if Py.truthy v
      then Py.strip
             (fun c => Py.mem c (String SPACE (String DQUOTE (String SQUOTE EmptyString))))
             v
      else EmptyString
  | None => EmptyString
  end.

(** Lines 123 to 142, on the stripped value: the value to write. *)
Definition record_value_for (request : Request) (record_type : RecordType)
    (method : MethodType) (value : string) : M string :=
  match record_type with
  | A =>
      if Py.truthy value then
        if negb (is_valid_ip value) then
          raise (mkHTTPException HTTP_400_BAD_REQUEST
                   "Value for A record is not a valid IP")
        else ret value
      else ret (client_host request)
  | TXT =>
      (if is_update method && negb (Py.truthy value) then
         raise (mkHTTPException HTTP_400_BAD_REQUEST
                  "TXT record value cannot be empty")
       else ret tt) ;;
      if Py.truthy value then
        let value := Py.replace DQUOTE (String BACKSLASH (String DQUOTE EmptyString)) value in
        ret (String DQUOTE EmptyString +:+ value +:+ String DQUOTE EmptyString)
      else ret EmptyString
  end.

(** Lines 145 to 151: the update file, accumulated host by host. *)
Definition file_content (record_type : RecordType) (method : MethodType)
    (host : list string) (record_value : string) : string :=
  let file_content := "server 127.0.0.1" +:+ nl in
  let file_content := file_content +:+ "zone " +:+ ZONE +:+ nl in
  let file_content :=
    fold_left
      (fun file_content record_host =>
         let file_content :=
           file_content +:+ "update delete " +:+ record_host +:+ "." +:+ ZONE
             +:+ " " +:+ RecordType_value record_type +:+ nl in
         if is_update method then
           file_content +:+ "update add " +:+ record_host +:+ "." +:+ ZONE
             +:+ " " +:+ RECORD_TTL +:+ " " +:+ RecordType_value record_type
             +:+ " " +:+ record_value +:+ nl
         else file_content)
      host file_content in
  file_content +:+ "send" +:+ nl.

(** Line 153: the same path for every request. *)
Definition update_file : string := gettempdir +:+ "/nsupdate.txt".

(** Lines 172 to 174. *)
Definition response_message (record_type : RecordType) (method : MethodType)
    (host : list string) (record_value : string) : string :=
  match method with
  | delete =>
      "Deleted record: " +:+ Py.repr_list host +:+ " " +:+ RecordType_value record_type
  | update =>
      "Updated record: " +:+ Py.repr_list host +:+ " " +:+ RecordType_value record_type
        +:+ " " +:+ record_value
  end.

(** [update_record], lines 113 to 176.  The [host] list has passed the
    [HostType] validation of the framework when the handler runs; the
    calls to the logger are left out. *)
Definition update_record (request : Request) (record_type : RecordType)
    (method : MethodType) (host : list string) (value : option string)
    : M ApiResponse :=
  let value := strip_value value in
  record_value ← record_value_for request record_type method value;
  let file_content := file_content record_type method host record_value in
  write_text update_file file_content ;;
  let command := [NSUPDATE; update_file] in
  proc ← create_subprocess_exec command;
  match proc with
  | SpawnFailed =>
      raise (mkHTTPException HTTP_500_INTERNAL_SERVER_ERROR "An error occured.")
  | Exited returncode _ _ =>
      if negb (returncode =? 0) then
        raise (mkHTTPException HTTP_500_INTERNAL_SERVER_ERROR "An error occured.")
      else
        ret (mkApiResponse true
               (response_message record_type method host record_value))
  end.

End Handler.

(** [get_ip], lines 179 to 182: the peer address as plain text. *)
Definition get_ip (request : Request) : string := client_host request.

(** The credentials of HTTP basic authentication. *)
Record HTTPBasicCredentials := mkCredentials { username : string; password : string }.

Definition HTTP_401_UNAUTHORIZED : Z := 401.

(** The dependency of the protected routes returns the user name or raises
    an exception that carries response headers. *)
Inductive Authentication :=
  | Authenticated (user : string)
  | Unauthorized (e : HTTPException) (headers : list (string * string)).

(** [secrets.compare_digest] on the encoded strings: equality, in constant
    time. *)
Definition compare_digest (a b : string) : bool := String.eqb a b.

(** [get_current_username], lines 93 to 109. *)
Definition get_current_username (AUTH_USER AUTH_PASS : string)
    (credentials : HTTPBasicCredentials) : Authentication :=
  let is_correct_username := compare_digest (username credentials) AUTH_USER in
  let is_correct_password := compare_digest (password credentials) AUTH_PASS in
  if negb (is_correct_username && is_correct_password) then
    Unauthorized
      (mkHTTPException HTTP_401_UNAUTHORIZED "Incorrect username or password")
      [("WWW-Authenticate", "Basic")]
  else Authenticated (username credentials).

End Api.

(** ** [src/ddns-api/api.py]

    This handler strips white space with [str.strip()] and changes case
    with [upper()] and [lower()], which Python defines on every code point;
    [Py.isspace], [Py.upper] and [Py.lower] are these on ASCII, so that the
    model is the handler on ASCII requests. *)

Module DdnsApi.

(** The dictionary a request handler returns. *)
Record Dict := mkDict { success : bool; message : string }.

(** What the handler reads of the request besides the route: the raw query
    arguments, the reverse-proxy header and the peer address. *)
Record Request := mkRequest {
  arg_host : option string;
  arg_value : option string;
  x_real_ip : option string;
  remote_addr : string
}.

(** The handler returns a dictionary, or the exception of a tool that could
    not be started leaves it: only [CalledProcessError] is caught. *)
Inductive Outcome :=
  | Returned (d : Dict)
  | Propagated.

(** An argument of the request parser: a string, empty by default,
    stripped of surrounding white space ([trim=True]). *)
Definition parse_arg (raw : option string) : string :=
  match raw with
  | Some v => Py.strip Py.isspace v
  | None => EmptyString
  end.

Section Handler.

Variable zone_env : string.
Variable RECORD_TTL : string.
Variable gettempdir : string.
Variable ip_address : string -> bool.
Variable subprocess_exec : list string -> gmap string string -> Proc.

Definition ZONE : string := Py.lstrip (fun c => Ascii.eqb c DOT) zone_env.

Definition valid_ip (address : string) : bool :=
  if ip_address address then true else false.

(** Lines 97 to 100: the comma-separated hosts, stripped, the empty ones
    dropped, each with the zone appended. *)
Definition prepare_hosts (args_host : string) : list string :=
  List.map (fun host => Py.strip Py.isspace host +:+ "." +:+ ZONE)
    (List.filter (fun host => Py.truthy (Py.strip Py.isspace host))
       (Py.split COMMA args_host)).

(** Lines 106 to 122: the value to write, or the message of the failure. *)
Definition prepare_value (request : Request) (record_type method args_value : string)
    : string + string :=
  if String.eqb record_type "A" then
    if Py.truthy args_value then
      if negb (valid_ip args_value) then inr "Address invalid"
      else inl args_value
    else
      inl (match x_real_ip request with
           | Some addr => addr
           | None => remote_addr request
           end)
  else if String.eqb record_type "TXT" then
    if negb (Py.truthy args_value) && negb (String.eqb method "delete") then
      inr "Empty TXT value"
    else
      inl (String DQUOTE EmptyString
           +:+ Py.strip (fun c => Py.mem c (String SPACE (String DQUOTE EmptyString)))
                 args_value
           +:+ String DQUOTE EmptyString)
  else inl EmptyString.

(** Lines 125 to 135: the update file. *)
Definition file_content (record_type method : string) (hosts : list string)
    (value : string) : string :=
  let file_content := "server localhost" +:+ nl in
  let file_content := file_content +:+ "zone " +:+ ZONE +:+ nl in
  let file_content :=
    fold_left
      (fun file_content host =>
         let record_text :=
           "update delete " +:+ host +:+ " " +:+ record_type +:+ nl in
         let record_text :=
           if String.eqb method "update" then
             record_text +:+ "update add " +:+ host +:+ " " +:+ RECORD_TTL
               +:+ " " +:+ record_type +:+ " " +:+ value +:+ nl
           else record_text in
         file_content +:+ record_text)
      hosts file_content in
  file_content +:+ "send" +:+ nl.

(** Line 137. *)
Definition update_filename : string := gettempdir +:+ "/nsupdate.txt".

(** [ResourceHandler.get], lines 78 to 155, for an authenticated request;
    the calls to the logger are left out.  The list of hosts is printed
    in the message as [Py.repr_list] does, which is Python's rendering
    when no host holds a quote, a backslash or a control character. *)
Definition get (request : Request) (record_type method : string) (w : World)
    : Outcome * World :=
  let record_type := Py.strip Py.isspace (Py.upper record_type) in
  let method := Py.strip Py.isspace (Py.lower method) in
  if negb (String.eqb record_type "A" || String.eqb record_type "TXT") then
    (Returned (mkDict false "Unknown record"), w)
  else if negb (String.eqb method "update" || String.eqb method "delete") then
    (Returned (mkDict false "Unknown method"), w)
  else
    let args_host := parse_arg (arg_host request) in
    let args_value := parse_arg (arg_value request) in
    let hosts := prepare_hosts args_host in
    match hosts with
    | [] => (Returned (mkDict false "Missing host value"), w)
    | _ :: _ =>
        match prepare_value request record_type method args_value with
        | inr failure => (Returned (mkDict false failure), w)
        | inl value =>
            let file_content := file_content record_type method hosts value in
            let w := mkWorld (<[update_filename := file_content]> (files w)) (runs w) in
            let command := [NSUPDATE; update_filename] in
            let proc := subprocess_exec command (files w) in
            let w := mkWorld (files w)
                       (runs w ++ [(command, files w !! update_filename)]) in
            match proc with
            | SpawnFailed => (Propagated, w)
            | Exited returncode _ _ =>
                if negb (returncode =? 0) then
                  (Returned (mkDict false "Error updating zone"), w)
                else
                  let message :=
                    if String.eqb method "delete" then
                      "Deleted record: " +:+ Py.repr_list hosts +:+ " " +:+ record_type
                    else
                      "Updated record: " +:+ Py.repr_list hosts +:+ " " +:+ record_type
                        +:+ " " +:+ value in
                  (Returned (mkDict true message), w)
            end
        end
    end.

End Handler.

(** [verify], lines 54 to 65; the warning it logs is left out. *)
Definition verify (AUTH_USER AUTH_PASS username password : string) : bool :=
  if negb (Py.truthy username && Py.truthy password) then false
  else if negb (Py.truthy AUTH_USER) || negb (Py.truthy AUTH_PASS) then false
  else
    let valid := String.eqb username AUTH_USER && String.eqb password AUTH_PASS in
    if valid then valid else false.



End DdnsApi.

(** ** The transaction grammar of the specification

    The line-oriented format of section 6 of the specification, written from
    its words: a [server] line, a [zone] line, for every name an
    [update delete] line optionally followed by an [update add] line, and a
    closing [send] line. *)

Definition delete_directive (fqdn type : string) : string :=
  "update delete " +:+ fqdn +:+ " " +:+ type.

Definition add_directive (fqdn ttl type value : string) : string :=
  "update add " +:+ fqdn +:+ " " +:+ ttl +:+ " " +:+ type +:+ " " +:+ value.

Definition name_directives (ttl type : string) (with_add : bool) (value fqdn : string)
    : list string :=
  delete_directive fqdn type ::
  (if with_add then [add_directive fqdn ttl type value] else []).

Definition transaction_lines (target zone ttl type : string) (with_add : bool)
    (value : string) (fqdns : list string) : list string :=
  ["server " +:+ target; "zone " +:+ zone]
  ++ flat_map (name_directives ttl type with_add value) fqdns
  ++ ["send"].


(** A string that fits on one line. *)
Definition no_lf (s : string) : bool := Py.all (fun c => negb (Ascii.eqb c LF)) s.

(** The fully qualified name [src/api.py] writes for a host. *)
Definition fqdn_of (zone host : string) : string := host +:+ "." +:+ zone.

(** The characters of a validated host name. *)
Definition host_char (c : ascii) : bool := Api.label_char c || Ascii.eqb c DOT.

(** The lines [src/api.py] means to write for a request. *)
Definition api_lines (zone_env RECORD_TTL : string) (record_type : Api.RecordType)
    (method : Api.MethodType) (host : list string) (record_value : string)
    : list string :=
  transaction_lines "127.0.0.1" (Api.ZONE zone_env) RECORD_TTL
    (Api.RecordType_value record_type) (Api.is_update method) record_value
    (List.map (fqdn_of (Api.ZONE zone_env)) host).

(** The value [src/api.py] resolves for a stripped value, or the exception
    of the validation: [Api.record_value_for] leaves the world alone. *)
Definition resolved (ip_address : string -> bool) (request : Api.Request)
    (record_type : Api.RecordType) (method : Api.MethodType) (value : string)
    : Api.Result string :=
  (Api.record_value_for ip_address request record_type method value (mkWorld ∅ [])).1.

(** What [src/api.py] answers once the tool has run. *)
Definition api_answer (proc : Proc) (message : string) : Api.Result Api.ApiResponse :=
  match proc with
  | SpawnFailed =>
      Api.Raise (Api.mkHTTPException Api.HTTP_500_INTERNAL_SERVER_ERROR "An error occured.")
  | Exited returncode _ _ =>
      if negb (returncode =? 0) then
        Api.Raise (Api.mkHTTPException Api.HTTP_500_INTERNAL_SERVER_ERROR "An error occured.")
      else Api.Return (Api.mkApiResponse true message)
  end.

(** A handler run from [w] to [w'] built the transaction [content] at [path]
    and handed it to the tool: it wrote the file and started the tool once,
    on that file. *)
Definition builds (w w' : World) (path content : string) : Prop :=
  files w' = <[path := content]> (files w)
  /\ runs w' = runs w ++ [([NSUPDATE; path], Some content)].

(** The exceptions of the validation. *)
Definition InvalidAddress : Api.HTTPException :=
  Api.mkHTTPException Api.HTTP_400_BAD_REQUEST "Value for A record is not a valid IP".
Definition EmptyValue : Api.HTTPException :=
  Api.mkHTTPException Api.HTTP_400_BAD_REQUEST "TXT record value cannot be empty".

(** A value of an A request that passes the validation: nothing is left of
    it once stripped, or [ipaddress.ip_address] accepts what is left. *)
Definition address_or_nothing (ip_address : string -> bool) (value : option string) : bool :=
  negb (Py.truthy (Api.strip_value value)) || ip_address (Api.strip_value value).

(** A value on which the two implementations do the same: it is ASCII, they
    strip it to the same string, and that string has no double quote to
    escape and nothing left for the second stripping of
    [src/ddns-api/api.py]. *)
Definition plain_value (value : option string) : bool :=
  Py.all (fun c => (nat_of_ascii c <? 128)%nat) (default EmptyString value)
  && String.eqb (Api.strip_value value) (DdnsApi.parse_arg value)
  && String.eqb
       (Py.strip (fun c => Py.mem c (String SPACE (String DQUOTE EmptyString)))
          (DdnsApi.parse_arg value))
       (DdnsApi.parse_arg value)
  && String.eqb
       (Py.replace DQUOTE (String BACKSLASH (String DQUOTE EmptyString))
          (DdnsApi.parse_arg value))
       (DdnsApi.parse_arg value).

(** A request of [src/api.py] as [src/ddns-api/api.py] receives it: the
    hosts in one comma-separated argument, the same value, the same peer
    address and no reverse-proxy header. *)
Definition as_ddns_request (request : Api.Request) (host : list string)
    (value : option string) : DdnsApi.Request :=
  DdnsApi.mkRequest (Some (Py.join "," host)) value None (Api.client_host request).

(** ** Quoted literals

    [spec_escape] is the escaping the specification describes: a backslash
    before every double quote and before every backslash.  [tool_unescape]
    is the reading of the inside of a quoted literal in the master-file
    syntax the tool accepts (RFC 1035, section 5.1): a backslash followed by
    three decimal digits is the octet with that number, a backslash followed
    by any other character is that character, and an unescaped double quote
    closes the literal. *)

Fixpoint spec_escape (s : string) : string :=
  match s with
  | EmptyString => EmptyString
  | String c s' =>
      if Ascii.eqb c DQUOTE || Ascii.eqb c BACKSLASH
      then String BACKSLASH (String c (spec_escape s'))
      else String c (spec_escape s')
  end.

Definition digit_value (c : ascii) : nat := (nat_of_ascii c - 48)%nat.

Fixpoint tool_unescape (s : string) : option string :=
  match s with
  | EmptyString => None
  | String c s' =>
      if Ascii.eqb c DQUOTE then
        match s' with EmptyString => Some EmptyString | String _ _ => None end
      else if Ascii.eqb c BACKSLASH then
        match s' with
        | EmptyString => None
        | String x s'' =>
            if Py.isdigit x then
              match s'' with
              | String y (String z r) =>
                  let n := (100 * digit_value x + 10 * digit_value y + digit_value z)%nat in
                  if Py.isdigit y && Py.isdigit z && (n <=? 255)%nat
                  then option_map (String (ascii_of_nat n)) (tool_unescape r)
                  else None
              | _ => None
              end
            else option_map (String x) (tool_unescape s'')
        end
      else option_map (String c) (tool_unescape s')
  end.

(** The string a quoted literal denotes for the tool. *)
Definition tool_read_literal (literal : string) : option string :=
  match literal with
  | String c body => if Ascii.eqb c DQUOTE then tool_unescape body else None
  | EmptyString => None
  end.

(** ** Requests in flight together

    A handler touches the shared files at two moments: when it writes the
    update file and when the tool it started opens that file.  Between the
    two the handler is suspended ([await] in [src/api.py], a blocking call
    in a request thread in [src/ddns-api/api.py]) and other requests run. *)

Module Concurrent.

Inductive action :=
  | WriteText (path content : string)
  | ToolReads (path : string).

(** The files, what is left to do for every request in flight, and what
    the tool of each request found in its file. *)
Record Pool := mkPool {
  pfiles : gmap string string;
  tasks : list (list action);
  seen : list (nat * option string)
}.

(** Request [i] takes its next action. *)
Definition perform (i : nat) (a : action) (p : Pool) : Pool :=
  match a with
  | WriteText path content =>
      mkPool (<[path := content]> (pfiles p)) (tasks p) (seen p)
  | ToolReads path =>
      mkPool (pfiles p) (tasks p) (seen p ++ [(i, pfiles p !! path)])
  end.

Definition advance (i : nat) (p : Pool) : Pool :=
  match tasks p !! i with
  | Some (a :: rest) =>
      let p' := perform i a p in
      mkPool (pfiles p') (<[i := rest]> (tasks p')) (seen p')
  | _ => p
  end.


(** A schedule names the request that advances at each step. *)
Definition run (schedule : list nat) (p : Pool) : Pool :=
  fold_left (fun p i => advance i p) schedule p.


(** The actions of the executor for one transaction: lines 153 to 163 of
    [src/api.py], lines 137 to 146 of [src/ddns-api/api.py]. *)
Definition executor (update_file file_content : string) : list action :=
  [WriteText update_file file_content; ToolReads update_file].





End Concurrent.

(** ** Concrete configurations for the examples *)

(** A recogniser of dotted-quad IPv4 literals (four decimal fields of one to
    three digits, at most 255, without leading zero), standing in for
    [ipaddress.ip_address] in the examples. *)
Definition decimal_value (s : string) : nat :=
  fold_left (fun n c => (10 * n + digit_value c)%nat) (String.list_ascii_of_string s) 0%nat.

Definition ipv4_field (s : string) : bool :=
  match s with
  | EmptyString => false
  | String c rest =>
      Py.all Py.isdigit s && (String.length s <=? 3)%nat && (decimal_value s <=? 255)%nat
      && (negb (Ascii.eqb c "0"%char)
          || match rest with EmptyString => true | String _ _ => false end)
  end.

Definition ipv4_literal (s : string) : bool :=
  let fields := Py.split DOT s in
  (List.length fields =? 4)%nat && forallb ipv4_field fields.

(** A tool that exits with a given status without output, and one that
    cannot be started. *)
Definition tool_exits (returncode : Z) : list string -> gmap string string -> Proc :=
  fun _ _ => Exited returncode EmptyString EmptyString.

Definition tool_missing : list string -> gmap string string -> Proc :=
  fun _ _ => SpawnFailed.

Definition empty_world : World := mkWorld ∅ [].

Definition peer : Api.Request := Api.mkRequest "192.0.2.7".

(** A value with a line feed in the middle, and one with a backslash. *)
Definition two_line_value : string := String "a" (String LF (String "b" EmptyString)).
Definition backslash_value : string := String "a" (String BACKSLASH (String "b" EmptyString)).

Definition dquote : string := String DQUOTE EmptyString.

Definition second_transaction : string :=
  Api.file_content "example.com" "3600" Api.A Api.update ["bar"] "10.0.0.6".

(** ** Notions used to state further properties *)

(** The exit status of a tool that ran. *)
Definition exit_status (proc : Proc) : option Z :=
  match proc with
  | SpawnFailed => None
  | Exited returncode _ _ => Some returncode
  end.

(** The characters [Api.strip_value] strips, and those the zone is stripped of. *)
Definition value_strip_char (c : ascii) : bool :=
  Py.mem c (String SPACE (String DQUOTE (String SQUOTE EmptyString))).
Definition zone_strip_char (c : ascii) : bool :=
  Py.mem c (String DOT (String SPACE EmptyString)).

(** The first and the last character of a string. *)
Definition first_char (s : string) : option ascii :=
  match s with EmptyString => None | String c _ => Some c end.
Fixpoint last_char (s : string) : option ascii :=
  match s with
  | EmptyString => None
  | String c EmptyString => Some c
  | String _ s' => last_char s'
  end.

(** No character of the string, at either end, is one that is stripped. *)
Definition stripped (p : ascii -> bool) (s : string) : Prop :=
  (forall c, first_char s = Some c -> p c = false)
  /\ (forall c, last_char s = Some c -> p c = false).


(** A host argument with nothing but commas and white space. *)
Definition blank_hosts (args_host : string) : bool :=
  Py.all (fun c => Py.isspace c || Ascii.eqb c COMMA) args_host.

(** The refusals of [src/ddns-api/api.py]. *)
Definition ddns_refusals : list string :=
  [ "Unknown record"; "Unknown method"; "Missing host value";
    "Address invalid"; "Empty TXT value" ].

(** What [src/ddns-api/api.py] answers once the tool has run. *)
Definition ddns_answer (proc : Proc) (message : string) : DdnsApi.Outcome :=
  match proc with
  | SpawnFailed => DdnsApi.Propagated
  | Exited returncode _ _ =>
      if negb (returncode =? 0) then
        DdnsApi.Returned (DdnsApi.mkDict false "Error updating zone")
      else DdnsApi.Returned (DdnsApi.mkDict true message)
  end.

(** A tool that reports on its streams what it read. *)
Definition tool_echo (returncode : Z) : list string -> gmap string string -> Proc :=
  fun command fs =>
    Exited returncode (default EmptyString (fs !! List.last command EmptyString))
      "diagnostics".

(** * Properties *)

(** ** Strings and lines *)

Lemma sapp_cons (c : ascii) (s t : string) : String c s +:+ t = String c (s +:+ t).
Proof. reflexivity. Qed.

Lemma sapp_nil_r (s : string) : s +:+ EmptyString = s.
Proof. induction s as [|c s IH]; [reflexivity|]. rewrite sapp_cons. by f_equal. Qed.

Lemma sapp_assoc (a b c : string) : (a +:+ b) +:+ c = a +:+ (b +:+ c).
Proof.
  induction a as [|x a IH]; [reflexivity|].
  rewrite !sapp_cons. by f_equal.
Qed.

Lemma all_app (p : ascii -> bool) (a b : string) :
  Py.all p (a +:+ b) = Py.all p a && Py.all p b.
Proof.
  induction a as [|x a IH]; [reflexivity|].
  rewrite sapp_cons. simpl. rewrite IH. by rewrite andb_assoc.
Qed.

Lemma no_lf_app (a b : string) : no_lf (a +:+ b) = no_lf a && no_lf b.
Proof. apply all_app. Qed.

Lemma lines_line (l rest : string) :
  no_lf l = true -> lines (l +:+ nl +:+ rest) = l :: lines rest.
Proof.
  induction l as [|c l IH]; intros Hl.
  - reflexivity.
  - simpl in Hl. apply andb_prop in Hl as [Hc Hl].
    rewrite sapp_cons. simpl. rewrite (negb_true_iff _) in Hc. rewrite Hc.
    by rewrite (IH Hl).
Qed.

Lemma lines_unlines (ls : list string) :
  Forall (fun l => no_lf l = true) ls -> lines (unlines ls) = ls.
Proof.
  induction 1 as [|l ls Hl _ IH]; [reflexivity|].
  simpl. rewrite (lines_line _ _ Hl). by f_equal.
Qed.

Lemma unlines_app (xs ys : list string) :
  unlines (xs ++ ys) = unlines xs +:+ unlines ys.
Proof.
  induction xs as [|x xs IH]; [reflexivity|].
  simpl. rewrite IH. by rewrite !sapp_assoc.
Qed.

Lemma all_impl (p q : ascii -> bool) (s : string) :
  (forall c, p c = true -> q c = true) -> Py.all p s = true -> Py.all q s = true.
Proof.
  intros Hpq. induction s as [|c s IH]; [done|].
  simpl. intros [Hc Hs]%andb_prop. by rewrite (Hpq _ Hc), (IH Hs).
Qed.

Lemma split_not_nil (sep : ascii) (s : string) : Py.split sep s <> [].
Proof.
  destruct s as [|c s]; [done|]. simpl.
  destruct (Ascii.eqb c sep); [done|]. by destruct (Py.split sep s).
Qed.

(** The characters of the pieces of a split, with the separator, are the
    characters of the string. *)
Lemma split_all (p : ascii -> bool) (sep : ascii) (s : string) :
  forallb (Py.all p) (Py.split sep s) = true ->
  Py.all (fun c => p c || Ascii.eqb c sep) s = true.
Proof.
  induction s as [|c s IH]; [done|].
  simpl. destruct (Ascii.eqb c sep) eqn:Hc.
  - simpl. intros H. rewrite orb_true_r. by apply IH.
  - destruct (Py.split sep s) as [|w ws] eqn:Hs; [by apply split_not_nil in Hs|].
    simpl. intros [[Hpc Hw]%andb_prop Hws]%andb_prop.
    rewrite Hpc. simpl. apply IH. simpl. by rewrite Hw, Hws.
Qed.

(** ** Host names *)

Lemma is_label_chars (l : string) : Api.is_label l = true -> Py.all Api.label_char l = true.
Proof.
  destruct l as [|c l]; [done|].
  unfold Api.is_label. by intros [[_ H]%andb_prop _]%andb_prop.
Qed.

Lemma HostType_chars (h : string) : Api.HostType h = true -> Py.all host_char h = true.
Proof.
  intros H. apply split_all. unfold Api.HostType in H.
  rewrite forallb_forall in *. intros l Hl. apply is_label_chars, H, Hl.
Qed.

Lemma host_char_not_lf (c : ascii) : host_char c = true -> negb (Ascii.eqb c LF) = true.
Proof. destruct c as [[] [] [] [] [] [] [] []]; vm_compute; congruence. Qed.

Lemma HostType_no_lf (h : string) : Api.HostType h = true -> no_lf h = true.
Proof. intros H. eapply all_impl, HostType_chars, H. apply host_char_not_lf. Qed.

(** ** The update file of [src/api.py] *)

Section ApiFacts.

Variable zone_env : string.
Variable RECORD_TTL : string.
Variable gettempdir : string.
Variable ip_address : string -> bool.
Variable subprocess_exec : list string -> gmap string string -> Proc.

Local Notation "'ZONE'" := (Api.ZONE zone_env).
Local Notation "'update_file'" := (Api.update_file gettempdir).
Local Notation "'update_record'" :=
  (Api.update_record zone_env RECORD_TTL gettempdir ip_address subprocess_exec).

Lemma api_loop (record_type : Api.RecordType) (method : Api.MethodType)
    (record_value : string) (host : list string) (acc : string) :
  fold_left
    (fun file_content record_host =>
       let file_content :=
         file_content +:+ "update delete " +:+ record_host +:+ "." +:+ ZONE
           +:+ " " +:+ Api.RecordType_value record_type +:+ nl in
       if Api.is_update method then
         file_content +:+ "update add " +:+ record_host +:+ "." +:+ ZONE
           +:+ " " +:+ RECORD_TTL +:+ " " +:+ Api.RecordType_value record_type
           +:+ " " +:+ record_value +:+ nl
       else file_content)
    host acc
  = acc +:+ unlines (flat_map
                       (name_directives RECORD_TTL (Api.RecordType_value record_type)
                          (Api.is_update method) record_value)
                       (List.map (fqdn_of ZONE) host)).
Proof.
  revert acc. induction host as [|h host IH]; intros acc.
  - simpl. by rewrite sapp_nil_r.
  - simpl fold_left. rewrite IH. simpl List.map. simpl flat_map.
    unfold name_directives at 2, delete_directive, add_directive, fqdn_of.
    destruct (Api.is_update method); simpl unlines; by rewrite !sapp_assoc.
Qed.

Lemma api_file_content (record_type : Api.RecordType) (method : Api.MethodType)
    (host : list string) (record_value : string) :
  Api.file_content zone_env RECORD_TTL record_type method host record_value
  = unlines (api_lines zone_env RECORD_TTL record_type method host record_value).
Proof.
  unfold Api.file_content, api_lines, transaction_lines.
  rewrite api_loop. rewrite !unlines_app. simpl unlines.
  by rewrite !sapp_assoc, ?sapp_nil_r.
Qed.


Lemma record_value_for_resolved (request : Api.Request) (record_type : Api.RecordType)
    (method : Api.MethodType) (value : string) (w : World) :
  Api.record_value_for ip_address request record_type method value w
  = (resolved ip_address request record_type method value, w).
Proof.
  unfold resolved, Api.record_value_for.
  destruct record_type.
  - destruct (Py.truthy value); [|done].
    by destruct (negb (Api.is_valid_ip ip_address value)).
  - unfold mbind, Api.M_bind, Api.bind.
    destruct (Api.is_update method && negb (Py.truthy value)); [done|].
    simpl. by destruct (Py.truthy value).
Qed.

(** The handler in one equation: a rejected request leaves the world alone;
    an accepted one writes the update file, starts the tool on it and answers
    by the exit status. *)
Lemma update_record_unfold (request : Api.Request) (record_type : Api.RecordType)
    (method : Api.MethodType) (host : list string) (value : option string) (w : World) :
  update_record request record_type method host value w
  = match resolved ip_address request record_type method (Api.strip_value value) with
    | Api.Raise e => (Api.Raise e, w)
    | Api.Return record_value =>
        let content :=
          Api.file_content zone_env RECORD_TTL record_type method host record_value in
        let fs := <[update_file := content]> (files w) in
        (api_answer (subprocess_exec [NSUPDATE; update_file] fs)
           (Api.response_message record_type method host record_value),
         mkWorld fs (runs w ++ [([NSUPDATE; update_file], Some content)]))
    end.
Proof.
  unfold Api.update_record, mbind, Api.M_bind, Api.bind.
  rewrite record_value_for_resolved.
  destruct (resolved _ _ _ _ _) as [record_value|e]; [|done].
  unfold Api.write_text, Api.create_subprocess_exec. simpl.
  rewrite lookup_insert_eq.
  by destruct (subprocess_exec _ _) as [|rc out err]; [|simpl; destruct (negb (rc =? 0))].
Qed.

Lemma update_record_builds (request : Api.Request) (record_type : Api.RecordType)
    (method : Api.MethodType) (host : list string) (value : option string) (w : World)
    (record_value : string) :
  resolved ip_address request record_type method (Api.strip_value value)
    = Api.Return record_value ->
  builds w (update_record request record_type method host value w).2 update_file
    (unlines (api_lines zone_env RECORD_TTL record_type method host record_value)).
Proof.
  intros Hv. rewrite update_record_unfold, Hv. simpl.
  rewrite api_file_content. by split.
Qed.

Lemma update_record_rejects (request : Api.Request) (record_type : Api.RecordType)
    (method : Api.MethodType) (host : list string) (value : option string) (w : World)
    (e : Api.HTTPException) :
  resolved ip_address request record_type method (Api.strip_value value) = Api.Raise e ->
  update_record request record_type method host value w = (Api.Raise e, w).
Proof. intros Hv. by rewrite update_record_unfold, Hv. Qed.

End ApiFacts.

(** ** One directive, one line *)

Lemma name_directives_no_lf (ttl type : string) (with_add : bool) (value fqdn : string) :
  no_lf type = true -> no_lf fqdn = true ->
  (with_add = true -> no_lf ttl = true /\ no_lf value = true) ->
  Forall (fun l => no_lf l = true) (name_directives ttl type with_add value fqdn).
Proof.
  intros Ht Hf Hadd. unfold name_directives, delete_directive, add_directive.
  constructor.
  - rewrite !no_lf_app, Ht, Hf. reflexivity.
  - destruct with_add; [|constructor].
    destruct (Hadd eq_refl) as [Httl Hv].
    constructor; [|constructor].
    rewrite !no_lf_app, Ht, Hf, Httl, Hv. reflexivity.
Qed.

Lemma transaction_lines_no_lf (target zone ttl type : string) (with_add : bool)
    (value : string) (fqdns : list string) :
  no_lf target = true -> no_lf zone = true -> no_lf type = true ->
  Forall (fun f => no_lf f = true) fqdns ->
  (with_add = true -> no_lf ttl = true /\ no_lf value = true) ->
  Forall (fun l => no_lf l = true) (transaction_lines target zone ttl type with_add value fqdns).
Proof.
  intros Hs Hz Ht Hf Hadd. unfold transaction_lines.
  rewrite !Forall_app. split; [|split].
  - repeat constructor; rewrite no_lf_app; [by rewrite Hs | by rewrite Hz].
  - induction Hf as [|f fqdns Hf _ IH]; [constructor|].
    cbn [flat_map]. rewrite Forall_app. split; [|exact IH].
    by apply name_directives_no_lf.
  - by repeat constructor.
Qed.

Lemma RecordType_value_no_lf (t : Api.RecordType) : no_lf (Api.RecordType_value t) = true.
Proof. by destruct t. Qed.

Lemma fqdns_no_lf (zone : string) (host : list string) :
  no_lf zone = true -> Forall (fun h => Api.HostType h = true) host ->
  Forall (fun f => no_lf f = true) (List.map (fqdn_of zone) host).
Proof.
  intros Hz Hh. apply Forall_map. eapply Forall_impl; [exact Hh|].
  intros h Hv. simpl. unfold fqdn_of. rewrite !no_lf_app, Hz.
  by rewrite (HostType_no_lf _ Hv).
Qed.

(** The lines of the update file are the lines the handler means to write,
    as long as nothing it formats into them holds a line feed. *)
Lemma api_lines_read_back (zone_env RECORD_TTL : string) (record_type : Api.RecordType)
    (method : Api.MethodType) (host : list string) (record_value : string) :
  Forall (fun h => Api.HostType h = true) host ->
  no_lf (Api.ZONE zone_env) = true ->
  (Api.is_update method = true -> no_lf RECORD_TTL = true /\ no_lf record_value = true) ->
  lines (unlines (api_lines zone_env RECORD_TTL record_type method host record_value))
  = api_lines zone_env RECORD_TTL record_type method host record_value.
Proof.
  intros Hh Hz Hadd. apply lines_unlines. unfold api_lines.
  apply transaction_lines_no_lf; auto using RecordType_value_no_lf, fqdns_no_lf.
Qed.

(** ** The claims of the specification about [src/api.py] *)



Lemma flat_map_after_map {X Y Z : Type} (f : Y -> list Z) (g : X -> Y) (l : list X) :
  flat_map f (List.map g l) = flat_map (fun x => f (g x)) l.
Proof. induction l as [|x l IH]; [done|]. simpl. by rewrite IH. Qed.

Lemma delete_lines (ttl type value : string) (fqdns : list string) :
  flat_map (name_directives ttl type false value) fqdns
  = List.map (fun fqdn => delete_directive fqdn type) fqdns.
Proof. induction fqdns as [|f fqdns IH]; [done|]. simpl. by rewrite IH. Qed.




(** C7.  For an A update without an explicit value (none given, or nothing
    left of it once spaces and quotes are stripped), the value resolved is
    the address of the caller as the transport reports it,
    [request.client.host], and the add directive of every host carries it. *)
Theorem a_update_without_value_uses_caller_address
    (zone_env RECORD_TTL gettempdir : string) (ip_address : string -> bool)
    (subprocess_exec : list string -> gmap string string -> Proc)
    (request : Api.Request) (host : list string) (value : option string) (w : World) :
  Py.truthy (Api.strip_value value) = false ->
  Api.record_value_for ip_address request Api.A Api.update (Api.strip_value value) w
    = (Api.Return (Api.client_host request), w)
  /\ builds w
       (Api.update_record zone_env RECORD_TTL gettempdir ip_address subprocess_exec
          request Api.A Api.update host value w).2
       (Api.update_file gettempdir)
       (unlines
          (["server 127.0.0.1"; "zone " +:+ Api.ZONE zone_env]
           ++ flat_map
                (fun h =>
                   [ delete_directive (fqdn_of (Api.ZONE zone_env) h) "A";
                     add_directive (fqdn_of (Api.ZONE zone_env) h) RECORD_TTL "A"
                       (Api.client_host request) ])
                host
           ++ ["send"])).
Proof.
  intros Hv.
  assert (Hres : resolved ip_address request Api.A Api.update (Api.strip_value value)
                 = Api.Return (Api.client_host request)).
  { unfold resolved, Api.record_value_for. by rewrite Hv. }
  split.
  - by rewrite record_value_for_resolved, Hres.
  - pose proof (update_record_builds zone_env RECORD_TTL gettempdir ip_address
                  subprocess_exec request Api.A Api.update host value w _ Hres) as Hb.
    unfold api_lines, transaction_lines in Hb. by rewrite flat_map_after_map in Hb.
Qed.

Lemma a_update_without_value_example :
  exists content : string,
    files (Api.update_record "example.com" "3600" "/tmp" ipv4_literal (tool_exits 0)
             peer Api.A Api.update ["foo"] None empty_world).2
      !! "/tmp/nsupdate.txt" = Some content
    /\ lines content
       = [ "server 127.0.0.1"; "zone example.com";
           "update delete foo.example.com A";
           "update add foo.example.com 3600 A 192.0.2.7";
           "send" ].
Proof.
  destruct (a_update_without_value_uses_caller_address
              "example.com" "3600" "/tmp" ipv4_literal (tool_exits 0)
              peer ["foo"] None empty_world eq_refl)
    as [_ [Hfiles _]].
  eexists. split.
  - rewrite Hfiles. apply lookup_insert_eq.
  - reflexivity.
Defined.


Lemma all_replace (p : ascii -> bool) (old : ascii) (new s : string) :
  Py.all p new = true -> Py.all p s = true -> Py.all p (Py.replace old new s) = true.
Proof.
  intros Hnew. induction s as [|c s IH]; [done|].
  simpl. intros [Hc Hs]%andb_prop. destruct (Ascii.eqb c old).
  - rewrite all_app, Hnew. by apply IH.
  - simpl. rewrite Hc. by apply IH.
Qed.

Lemma resolved_no_lf (ip_address : string -> bool) (request : Api.Request)
    (record_type : Api.RecordType) (method : Api.MethodType) (value record_value : string) :
  no_lf value = true -> no_lf (Api.client_host request) = true ->
  resolved ip_address request record_type method value = Api.Return record_value ->
  no_lf record_value = true.
Proof.
  intros Hv Hc. unfold resolved, Api.record_value_for. destruct record_type.
  - destruct (Py.truthy value).
    + destruct (negb (Api.is_valid_ip ip_address value)); [done|]. by intros [= <-].
    + by intros [= <-].
  - unfold mbind, Api.M_bind, Api.bind.
    destruct (Api.is_update method && negb (Py.truthy value)); [done|]. simpl.
    destruct (Py.truthy value); intros [= <-]; [|done].
    rewrite !no_lf_app. unfold no_lf at 2. by rewrite all_replace.
Qed.

(** C3, as the code has it.  For a request that passes validation, with
    validated hosts, and with no line feed in the zone, in the TTL, in the
    stripped value and in the address of the caller, the update file is,
    byte for byte, the lines of the grammar: [server 127.0.0.1], the zone
    line, for every host its delete directive followed for an update by its
    add directive, and [send]; each directive is exactly one line. *)
Theorem update_file_follows_grammar
    (zone_env RECORD_TTL gettempdir : string) (ip_address : string -> bool)
    (subprocess_exec : list string -> gmap string string -> Proc)
    (request : Api.Request) (record_type : Api.RecordType) (method : Api.MethodType)
    (host : list string) (value : option string) (w : World) (record_value : string) :
  Forall (fun h => Api.HostType h = true) host ->
  no_lf (Api.ZONE zone_env) = true ->
  no_lf RECORD_TTL = true ->
  no_lf (Api.strip_value value) = true ->
  no_lf (Api.client_host request) = true ->
  Api.record_value_for ip_address request record_type method (Api.strip_value value) w
    = (Api.Return record_value, w) ->
  exists content : string,
    builds w
      (Api.update_record zone_env RECORD_TTL gettempdir ip_address subprocess_exec
         request record_type method host value w).2
      (Api.update_file gettempdir) content
    /\ content
       = unlines
           (transaction_lines "127.0.0.1" (Api.ZONE zone_env) RECORD_TTL
              (Api.RecordType_value record_type) (Api.is_update method) record_value
              (List.map (fqdn_of (Api.ZONE zone_env)) host))
    /\ lines content
       = transaction_lines "127.0.0.1" (Api.ZONE zone_env) RECORD_TTL
           (Api.RecordType_value record_type) (Api.is_update method) record_value
           (List.map (fqdn_of (Api.ZONE zone_env)) host).
Proof.
  intros Hh Hz Httl Hv Hc Hres.
  rewrite record_value_for_resolved in Hres. injection Hres as Hres.
  eexists. split; [by eapply update_record_builds|]. split; [done|].
  apply api_lines_read_back; [done..|].
  intros _. split; [done|]. exact (resolved_no_lf _ _ _ _ _ _ Hv Hc Hres).
Qed.

Lemma update_file_follows_grammar_example :
  exists content : string,
    files (Api.update_record "example.com" "3600" "/tmp" ipv4_literal (tool_exits 0)
             peer Api.TXT Api.update ["foo"; "bar"] (Some "hello world") empty_world).2
      !! "/tmp/nsupdate.txt" = Some content
    /\ lines content
       = [ "server 127.0.0.1"; "zone example.com";
           "update delete foo.example.com TXT";
           "update add foo.example.com 3600 TXT " +:+ dquote +:+ "hello world" +:+ dquote;
           "update delete bar.example.com TXT";
           "update add bar.example.com 3600 TXT " +:+ dquote +:+ "hello world" +:+ dquote;
           "send" ].
Proof.
  destruct (update_file_follows_grammar
              "example.com" "3600" "/tmp" ipv4_literal (tool_exits 0)
              peer Api.TXT Api.update ["foo"; "bar"] (Some "hello world") empty_world
              (dquote +:+ "hello world" +:+ dquote))
    as (content & [Hfiles _] & _ & Hlines); [by repeat constructor|reflexivity..|].
  exists content. split; [|exact Hlines].
  rewrite Hfiles. apply lookup_insert_eq.
Defined.

(** C3, as stated, fails: a TXT update whose value holds a line feed passes
    validation, and its add directive is spread over two lines of the update
    file, which then has six lines where the grammar has five directives. *)
Lemma value_with_line_feed_splits_directive :
  exists content : string,
    files (Api.update_record "example.com" "3600" "/tmp" ipv4_literal (tool_exits 0)
             peer Api.TXT Api.update ["foo"] (Some two_line_value) empty_world).2
      !! "/tmp/nsupdate.txt" = Some content
    /\ lines content
       = [ "server 127.0.0.1"; "zone example.com";
           "update delete foo.example.com TXT";
           "update add foo.example.com 3600 TXT " +:+ dquote +:+ "a";
           "b" +:+ dquote;
           "send" ]
    /\ lines content
       <> transaction_lines "127.0.0.1" "example.com" "3600" "TXT" true
            (dquote +:+ two_line_value +:+ dquote) ["foo.example.com"].
Proof.
  eexists. split; [|split].
  - rewrite update_record_unfold. simpl. apply lookup_insert_eq.
  - reflexivity.
  - discriminate.
Qed.

(** A delete request writes the same file and answers the same message
    whatever value was resolved for it. *)
Lemma delete_forgets_record_value (zone_env RECORD_TTL : string)
    (record_type : Api.RecordType) (host : list string) (v1 v2 : string) :
  Api.file_content zone_env RECORD_TTL record_type Api.delete host v1
  = Api.file_content zone_env RECORD_TTL record_type Api.delete host v2.
Proof.
  rewrite !api_file_content. unfold api_lines, transaction_lines. simpl Api.is_update.
  by rewrite !delete_lines.
Qed.

Lemma resolved_delete_accepts (ip_address : string -> bool) (request : Api.Request)
    (record_type : Api.RecordType) (value : option string) :
  (record_type = Api.A -> address_or_nothing ip_address value = true) ->
  exists record_value : string,
    resolved ip_address request record_type Api.delete (Api.strip_value value)
    = Api.Return record_value.
Proof.
  unfold address_or_nothing, resolved, Api.record_value_for, Api.is_valid_ip.
  destruct record_type; intros Hok.
  - specialize (Hok eq_refl). destruct (Py.truthy (Api.strip_value value)); [|by eexists].
    simpl in Hok. rewrite Hok. by eexists.
  - unfold mbind, Api.M_bind, Api.bind. simpl.
    destruct (Py.truthy (Api.strip_value value)); by eexists.
Qed.

(** C5, as the code has it.  A delete request is not refused on account of
    its value, and its value is ignored, when the record type is TXT, or
    when the record type is A and the value is empty once stripped or is a
    valid address: two such requests that differ in the value only have the
    same outcome, leave the same world and build the same transaction. *)
Theorem delete_ignores_accepted_value
    (zone_env RECORD_TTL gettempdir : string) (ip_address : string -> bool)
    (subprocess_exec : list string -> gmap string string -> Proc)
    (request : Api.Request) (record_type : Api.RecordType) (host : list string)
    (value1 value2 : option string) (w : World) :
  (record_type = Api.A ->
   address_or_nothing ip_address value1 = true
   /\ address_or_nothing ip_address value2 = true) ->
  Api.update_record zone_env RECORD_TTL gettempdir ip_address subprocess_exec
    request record_type Api.delete host value1 w
  = Api.update_record zone_env RECORD_TTL gettempdir ip_address subprocess_exec
      request record_type Api.delete host value2 w
  /\ exists content : string,
       builds w
         (Api.update_record zone_env RECORD_TTL gettempdir ip_address subprocess_exec
            request record_type Api.delete host value1 w).2
         (Api.update_file gettempdir) content.
Proof.
  intros Hok.
  destruct (resolved_delete_accepts ip_address request record_type value1) as [v1 H1];
    [by intros Ht; apply Hok|].
  destruct (resolved_delete_accepts ip_address request record_type value2) as [v2 H2];
    [by intros Ht; apply Hok|].
  split.
  - rewrite !update_record_unfold, H1, H2. simpl.
    by rewrite (delete_forgets_record_value _ _ _ _ v1 v2).
  - eexists. by eapply update_record_builds.
Qed.

Lemma delete_ignores_accepted_value_example :
  Api.update_record "example.com" "3600" "/tmp" ipv4_literal (tool_exits 0)
    peer Api.A Api.delete ["foo"] (Some "10.0.0.5") empty_world
  = Api.update_record "example.com" "3600" "/tmp" ipv4_literal (tool_exits 0)
      peer Api.A Api.delete ["foo"] None empty_world.
Proof.
  apply (delete_ignores_accepted_value
           "example.com" "3600" "/tmp" ipv4_literal (tool_exits 0)
           peer Api.A ["foo"] (Some "10.0.0.5") None empty_world).
  intros _. split; reflexivity.
Defined.

(** C5, as stated, fails: an A delete whose value is not an address is
    refused by the validation, while the same request without a value
    deletes the record. *)
Lemma a_delete_with_invalid_address_is_refused :
  (Api.update_record "example.com" "3600" "/tmp" ipv4_literal (tool_exits 0)
     peer Api.A Api.delete ["foo"] (Some "not-an-ip") empty_world).1
  = Api.Raise InvalidAddress
  /\ (Api.update_record "example.com" "3600" "/tmp" ipv4_literal (tool_exits 0)
        peer Api.A Api.delete ["foo"] None empty_world).1
     = Api.Return (Api.mkApiResponse true "Deleted record: ['foo'] A").
Proof. rewrite !update_record_unfold. split; reflexivity. Qed.

(** C8, as the code has it.  A request is refused by the validation before
    the executor runs, and then no file is written; or the executor writes
    the update file and, whatever the tool does (zero status, non-zero
    status, or no start at all), the file is still there when the request
    completes, holding the transaction. *)
Theorem update_file_is_left_in_place
    (zone_env RECORD_TTL gettempdir : string) (ip_address : string -> bool)
    (subprocess_exec : list string -> gmap string string -> Proc)
    (request : Api.Request) (record_type : Api.RecordType) (method : Api.MethodType)
    (host : list string) (value : option string) (w : World) :
  (exists e : Api.HTTPException,
     (e = InvalidAddress \/ e = EmptyValue)
     /\ Api.update_record zone_env RECORD_TTL gettempdir ip_address subprocess_exec
          request record_type method host value w = (Api.Raise e, w))
  \/ (exists content : string,
        builds w
          (Api.update_record zone_env RECORD_TTL gettempdir ip_address subprocess_exec
             request record_type method host value w).2
          (Api.update_file gettempdir) content
        /\ files
             (Api.update_record zone_env RECORD_TTL gettempdir ip_address subprocess_exec
                request record_type method host value w).2
             !! Api.update_file gettempdir = Some content).
Proof.
  destruct (resolved ip_address request record_type method (Api.strip_value value))
    as [record_value|e] eqn:Hres.
  - right. eexists. split; [by eapply update_record_builds|].
    rewrite update_record_unfold, Hres. simpl.
    rewrite lookup_insert_eq. by rewrite api_file_content.
  - left. exists e. split; [|by apply update_record_rejects].
    revert Hres. unfold resolved, Api.record_value_for. destruct record_type.
    + destruct (Py.truthy _); [|done].
      destruct (negb _); [|done]. intros [= <-]. by left.
    + unfold mbind, Api.M_bind, Api.bind.
      destruct (Api.is_update method && negb (Py.truthy _)); simpl.
      * intros [= <-]. by right.
      * by destruct (Py.truthy _).
Qed.

(** C8, as stated, fails: the file did not exist before the request and is
    there after it on each of the three exit paths of the executor. *)
Lemma update_file_not_removed :
  files empty_world !! "/tmp/nsupdate.txt" = None
  /\ is_Some
       (files (Api.update_record "example.com" "3600" "/tmp" ipv4_literal (tool_exits 0)
                 peer Api.A Api.update ["foo"] (Some "10.0.0.5") empty_world).2
          !! "/tmp/nsupdate.txt")
  /\ is_Some
       (files (Api.update_record "example.com" "3600" "/tmp" ipv4_literal (tool_exits 1)
                 peer Api.A Api.update ["foo"] (Some "10.0.0.5") empty_world).2
          !! "/tmp/nsupdate.txt")
  /\ is_Some
       (files (Api.update_record "example.com" "3600" "/tmp" ipv4_literal tool_missing
                 peer Api.A Api.update ["foo"] (Some "10.0.0.5") empty_world).2
          !! "/tmp/nsupdate.txt").
Proof.
  rewrite !update_record_unfold. simpl.
  split; [done|]. by rewrite !lookup_insert_eq.
Qed.

(** ** Quoting of TXT values *)





(** C6 on the code.  A TXT update with the value a, backslash, b: the add
    directive carries the value between quotes with the backslash as it
    came, which is not the escaped literal of the specification, and the
    tool reads the literal written as the two letters a and b. *)
Theorem backslash_in_txt_value_is_not_escaped :
  exists content : string,
    files (Api.update_record "example.com" "3600" "/tmp" ipv4_literal (tool_exits 0)
             peer Api.TXT Api.update ["foo"] (Some backslash_value) empty_world).2
      !! "/tmp/nsupdate.txt" = Some content
    /\ lines content
       = [ "server 127.0.0.1"; "zone example.com";
           "update delete foo.example.com TXT";
           "update add foo.example.com 3600 TXT " +:+ dquote +:+ backslash_value +:+ dquote;
           "send" ]
    /\ dquote +:+ backslash_value +:+ dquote
       <> dquote +:+ spec_escape backslash_value +:+ dquote
    /\ tool_read_literal (dquote +:+ backslash_value +:+ dquote) = Some "ab"
    /\ tool_read_literal (dquote +:+ spec_escape backslash_value +:+ dquote)
       = Some backslash_value.
Proof.
  eexists. split.
  - rewrite update_record_unfold. simpl. apply lookup_insert_eq.
  - split; [reflexivity|]. split; [discriminate|]. split; reflexivity.
Qed.

(** ** The two implementations side by side *)

Lemma ddns_loop (ttl record_type method value : string) (hosts : list string) (acc : string) :
  fold_left
    (fun file_content host =>
       let record_text :=
         "update delete " +:+ host +:+ " " +:+ record_type +:+ nl in
       let record_text :=
         if String.eqb method "update" then
           record_text +:+ "update add " +:+ host +:+ " " +:+ ttl
             +:+ " " +:+ record_type +:+ " " +:+ value +:+ nl
         else record_text in
       file_content +:+ record_text)
    hosts acc
  = acc +:+ unlines (flat_map
                       (name_directives ttl record_type (String.eqb method "update") value)
                       hosts).
Proof.
  revert acc. induction hosts as [|h hosts IH]; intros acc.
  - simpl. by rewrite sapp_nil_r.
  - simpl fold_left. rewrite IH. cbn [flat_map].
    unfold name_directives at 2, delete_directive, add_directive.
    destruct (String.eqb method "update"); simpl unlines; by rewrite !sapp_assoc.
Qed.

Lemma ddns_file_content (zone_env ttl record_type method value : string)
    (hosts : list string) :
  DdnsApi.file_content zone_env ttl record_type method hosts value
  = unlines (transaction_lines "localhost" (DdnsApi.ZONE zone_env) ttl record_type
               (String.eqb method "update") value hosts).
Proof.
  unfold DdnsApi.file_content, transaction_lines.
  rewrite ddns_loop. rewrite !unlines_app. simpl unlines.
  by rewrite !sapp_assoc, ?sapp_nil_r.
Qed.

(** Nothing is stripped from a string that holds no character to strip. *)
Lemma strip_none (p : ascii -> bool) (s : string) :
  Py.all (fun c => negb (p c)) s = true -> Py.strip p s = s.
Proof.
  intros H. unfold Py.strip.
  assert (Hl : Py.lstrip p s = s).
  { destruct s as [|c s]; [done|]. simpl in *.
    apply andb_prop in H as [Hc _]. apply negb_true_iff in Hc. by rewrite Hc. }
  rewrite Hl. clear Hl. induction s as [|c s IH]; [done|].
  simpl in *. apply andb_prop in H as [Hc Hs]. apply negb_true_iff in Hc.
  rewrite (IH Hs). destruct s; [by rewrite Hc|done].
Qed.

Lemma split_none (sep : ascii) (s : string) :
  Py.all (fun c => negb (Ascii.eqb c sep)) s = true -> Py.split sep s = [s].
Proof.
  induction s as [|c s IH]; [done|].
  simpl. intros [Hc Hs]%andb_prop. apply negb_true_iff in Hc.
  by rewrite Hc, (IH Hs).
Qed.

Lemma split_first (sep : ascii) (s rest : string) :
  Py.all (fun c => negb (Ascii.eqb c sep)) s = true ->
  Py.split sep (s +:+ String sep rest) = s :: Py.split sep rest.
Proof.
  induction s as [|c s IH].
  - intros _. change (EmptyString +:+ String sep rest) with (String sep rest).
    simpl. by rewrite Ascii.eqb_refl.
  - intros [Hc Hs]%andb_prop. apply negb_true_iff in Hc.
    rewrite sapp_cons. cbn [Py.split]. by rewrite Hc, (IH Hs).
Qed.

Lemma split_join (sep : ascii) (l : list string) :
  l <> [] ->
  Forall (fun s => Py.all (fun c => negb (Ascii.eqb c sep)) s = true) l ->
  Py.split sep (Py.join (String sep EmptyString) l) = l.
Proof.
  intros Hne Hl. induction Hl as [|s l Hs Hl IH]; [done|].
  destruct l as [|s' l]; [by apply split_none|].
  change (Py.join (String sep EmptyString) (s :: s' :: l))
    with (s +:+ String sep EmptyString +:+ Py.join (String sep EmptyString) (s' :: l)).
  change (String sep EmptyString +:+ Py.join (String sep EmptyString) (s' :: l))
    with (String sep (Py.join (String sep EmptyString) (s' :: l))).
  rewrite (split_first _ _ _ Hs). by rewrite IH.
Qed.

Lemma all_join (p : ascii -> bool) (sep : string) (l : list string) :
  Py.all p sep = true -> Forall (fun s => Py.all p s = true) l ->
  Py.all p (Py.join sep l) = true.
Proof.
  intros Hsep Hl. induction Hl as [|s l Hs Hl IH]; [done|].
  destruct l as [|s' l]; [done|].
  change (Py.join sep (s :: s' :: l)) with (s +:+ sep +:+ Py.join sep (s' :: l)).
  by rewrite !all_app, Hs, Hsep, IH.
Qed.

Lemma host_char_not_comma (c : ascii) :
  host_char c = true -> negb (Ascii.eqb c COMMA) = true.
Proof. destruct c as [[] [] [] [] [] [] [] []]; vm_compute; congruence. Qed.

Lemma host_char_not_space (c : ascii) :
  host_char c || Ascii.eqb c COMMA = true -> negb (Py.isspace c) = true.
Proof. destruct c as [[] [] [] [] [] [] [] []]; vm_compute; congruence. Qed.

Lemma HostType_truthy (h : string) : Api.HostType h = true -> Py.truthy h = true.
Proof. by destruct h. Qed.

Lemma HostType_strip (h : string) : Api.HostType h = true -> Py.strip Py.isspace h = h.
Proof.
  intros H. apply strip_none. eapply all_impl, HostType_chars, H.
  intros c Hc. apply host_char_not_space. by rewrite Hc.
Qed.

(** The hosts [src/ddns-api/api.py] prepares from validated host names
    joined by commas are these names with the zone appended. *)
Lemma prepare_hosts_join (zone_env : string) (host : list string) :
  host <> [] -> Forall (fun h => Api.HostType h = true) host ->
  DdnsApi.prepare_hosts zone_env (DdnsApi.parse_arg (Some (Py.join "," host)))
  = List.map (fqdn_of (DdnsApi.ZONE zone_env)) host.
Proof.
  intros Hne Hh. unfold DdnsApi.prepare_hosts, DdnsApi.parse_arg.
  rewrite strip_none.
  2:{ eapply all_impl; [apply host_char_not_space|].
      apply all_join; [done|]. eapply Forall_impl; [exact Hh|].
      intros h Hv. simpl. eapply all_impl, HostType_chars, Hv.
      intros c Hc. by rewrite Hc. }
  change "," with (String COMMA EmptyString). rewrite split_join; [|done|].
  2:{ eapply Forall_impl; [exact Hh|]. intros h Hv. simpl.
      eapply all_impl, HostType_chars, Hv. apply host_char_not_comma. }
  clear Hne. induction Hh as [|h host Hv Hh IH]; [done|].
  simpl. rewrite (HostType_strip _ Hv), (HostType_truthy _ Hv). simpl.
  by rewrite (HostType_strip _ Hv), IH.
Qed.

Section DdnsFacts.

Variable zone_env : string.
Variable RECORD_TTL : string.
Variable gettempdir : string.
Variable ip_address : string -> bool.
Variable subprocess_exec : list string -> gmap string string -> Proc.

(** The handler of [src/ddns-api/api.py] on the routes of the two
    enumerations, when hosts are named and the value is accepted. *)
Lemma ddns_get_builds (request : DdnsApi.Request) (record_type : Api.RecordType)
    (method : Api.MethodType) (w : World) (value : string) :
  DdnsApi.prepare_hosts zone_env (DdnsApi.parse_arg (DdnsApi.arg_host request)) <> [] ->
  DdnsApi.prepare_value ip_address request (Api.RecordType_value record_type)
    (Api.MethodType_value method) (DdnsApi.parse_arg (DdnsApi.arg_value request))
    = inl value ->
  builds w
    (DdnsApi.get zone_env RECORD_TTL gettempdir ip_address subprocess_exec request
       (Api.RecordType_value record_type) (Api.MethodType_value method) w).2
    (DdnsApi.update_filename gettempdir)
    (unlines
       (transaction_lines "localhost" (DdnsApi.ZONE zone_env) RECORD_TTL
          (Api.RecordType_value record_type) (Api.is_update method) value
          (DdnsApi.prepare_hosts zone_env (DdnsApi.parse_arg (DdnsApi.arg_host request))))).
Proof.
  intros Hhosts Hvalue. unfold DdnsApi.get.
  assert (Ht : Py.strip Py.isspace (Py.upper (Api.RecordType_value record_type))
               = Api.RecordType_value record_type) by by destruct record_type.
  assert (Hm : Py.strip Py.isspace (Py.lower (Api.MethodType_value method))
               = Api.MethodType_value method) by by destruct method.
  rewrite Ht, Hm.
  assert (Ht' : (String.eqb (Api.RecordType_value record_type) "A"
                 || String.eqb (Api.RecordType_value record_type) "TXT") = true)
    by by destruct record_type.
  assert (Hm' : (String.eqb (Api.MethodType_value method) "update"
                 || String.eqb (Api.MethodType_value method) "delete") = true)
    by by destruct method.
  rewrite Ht', Hm'. cbn [negb].
  destruct (DdnsApi.prepare_hosts _ _) as [|h hosts] eqn:Hh; [done|].
  rewrite Hvalue, ddns_file_content.
  assert (Hu : String.eqb (Api.MethodType_value method) "update" = Api.is_update method)
    by by destruct method.
  rewrite Hu.
  destruct (subprocess_exec _ _) as [|rc out err]; cbn [snd].
  - split; [done|]. cbn [files runs]. by rewrite lookup_insert_eq.
  - destruct (negb (rc =? 0)); cbn [snd files runs]; (split; [done|]);
      by rewrite lookup_insert_eq.
Qed.

Lemma ddns_get_refuses (request : DdnsApi.Request) (record_type : Api.RecordType)
    (method : Api.MethodType) (w : World) (failure : string) :
  DdnsApi.prepare_hosts zone_env (DdnsApi.parse_arg (DdnsApi.arg_host request)) <> [] ->
  DdnsApi.prepare_value ip_address request (Api.RecordType_value record_type)
    (Api.MethodType_value method) (DdnsApi.parse_arg (DdnsApi.arg_value request))
    = inr failure ->
  DdnsApi.get zone_env RECORD_TTL gettempdir ip_address subprocess_exec request
    (Api.RecordType_value record_type) (Api.MethodType_value method) w
  = (DdnsApi.Returned (DdnsApi.mkDict false failure), w).
Proof.
  intros Hhosts Hvalue. unfold DdnsApi.get.
  assert (Ht : Py.strip Py.isspace (Py.upper (Api.RecordType_value record_type))
               = Api.RecordType_value record_type) by by destruct record_type.
  assert (Hm : Py.strip Py.isspace (Py.lower (Api.MethodType_value method))
               = Api.MethodType_value method) by by destruct method.
  rewrite Ht, Hm.
  assert (Ht' : (String.eqb (Api.RecordType_value record_type) "A"
                 || String.eqb (Api.RecordType_value record_type) "TXT") = true)
    by by destruct record_type.
  assert (Hm' : (String.eqb (Api.MethodType_value method) "update"
                 || String.eqb (Api.MethodType_value method) "delete") = true)
    by by destruct method.
  rewrite Ht', Hm'. cbn [negb].
  destruct (DdnsApi.prepare_hosts _ _) as [|h hosts] eqn:Hh; [done|].
  by rewrite Hvalue.
Qed.

End DdnsFacts.

(** On a plain value the two implementations accept or refuse together, and
    resolve the same value when the method is an update. *)
Lemma values_agree (ip_address : string -> bool) (request : Api.Request)
    (record_type : Api.RecordType) (method : Api.MethodType) (host : list string)
    (value : option string) :
  plain_value value = true ->
  match resolved ip_address request record_type method (Api.strip_value value),
        DdnsApi.prepare_value ip_address (as_ddns_request request host value)
          (Api.RecordType_value record_type) (Api.MethodType_value method)
          (DdnsApi.parse_arg value)
  with
  | Api.Return v, inl v' => Api.is_update method = true -> v = v'
  | Api.Raise _, inr _ => True
  | _, _ => False
  end.
Proof.
  unfold plain_value.
  intros [[[_ Hs%String.eqb_eq]%andb_prop Hq%String.eqb_eq]%andb_prop
            Hr%String.eqb_eq]%andb_prop.
  rewrite Hs. unfold resolved, Api.record_value_for, DdnsApi.prepare_value.
  unfold Api.is_valid_ip, DdnsApi.valid_ip.
  destruct record_type; cbn [Api.RecordType_value String.eqb Ascii.eqb Bool.eqb].
  - destruct (Py.truthy (DdnsApi.parse_arg value)); [|done].
    by destruct (ip_address (DdnsApi.parse_arg value)).
  - unfold mbind, Api.M_bind, Api.bind. rewrite Hq, Hr.
    destruct method, (Py.truthy (DdnsApi.parse_arg value)); simpl; done.
Qed.

(** C10, as the code has it.  For validated hosts, a zone on which the two
    ways of stripping agree and a plain value, the two implementations
    refuse a request together or build, at the same path, transactions that
    are the same after the first line, which names the server as 127.0.0.1
    in [src/api.py] and as localhost in [src/ddns-api/api.py]. *)
Theorem implementations_agree_after_server_line
    (zone_env RECORD_TTL gettempdir : string) (ip_address : string -> bool)
    (subprocess_exec : list string -> gmap string string -> Proc)
    (request : Api.Request) (record_type : Api.RecordType) (method : Api.MethodType)
    (host : list string) (value : option string) (w : World) :
  host <> [] ->
  Forall (fun h => Api.HostType h = true) host ->
  Api.ZONE zone_env = DdnsApi.ZONE zone_env ->
  plain_value value = true ->
  ((exists e : Api.HTTPException,
      Api.update_record zone_env RECORD_TTL gettempdir ip_address subprocess_exec
        request record_type method host value w = (Api.Raise e, w))
   /\ (exists failure : string,
         DdnsApi.get zone_env RECORD_TTL gettempdir ip_address subprocess_exec
           (as_ddns_request request host value)
           (Api.RecordType_value record_type) (Api.MethodType_value method) w
         = (DdnsApi.Returned (DdnsApi.mkDict false failure), w)))
  \/ (exists body : list string,
        builds w
          (Api.update_record zone_env RECORD_TTL gettempdir ip_address subprocess_exec
             request record_type method host value w).2
          (Api.update_file gettempdir) (unlines ("server 127.0.0.1" :: body))
        /\ builds w
             (DdnsApi.get zone_env RECORD_TTL gettempdir ip_address subprocess_exec
                (as_ddns_request request host value)
                (Api.RecordType_value record_type) (Api.MethodType_value method) w).2
             (DdnsApi.update_filename gettempdir) (unlines ("server localhost" :: body))
        /\ Api.update_file gettempdir = DdnsApi.update_filename gettempdir).
Proof.
  intros Hne Hh Hz Hplain.
  pose proof (values_agree ip_address request record_type method host value Hplain) as Hv.
  pose proof (prepare_hosts_join zone_env host Hne Hh) as Hhosts.
  assert (Hhosts' : DdnsApi.prepare_hosts zone_env
                      (DdnsApi.parse_arg
                         (DdnsApi.arg_host (as_ddns_request request host value))) <> []).
  { cbn [as_ddns_request DdnsApi.arg_host]. rewrite Hhosts. by destruct host. }
  destruct (resolved _ _ _ _ _) as [v|e] eqn:Hres;
    destruct (DdnsApi.prepare_value _ _ _ _ _) as [v'|failure] eqn:Hres'; try done.
  - right.
    pose proof (update_record_builds zone_env RECORD_TTL gettempdir ip_address
                  subprocess_exec request record_type method host value w v Hres) as Ha.
    pose proof (ddns_get_builds zone_env RECORD_TTL gettempdir ip_address subprocess_exec
                  (as_ddns_request request host value) record_type method w v'
                  Hhosts' Hres') as Hd.
    cbn [as_ddns_request DdnsApi.arg_host] in Hd. rewrite Hhosts in Hd.
    unfold api_lines in Ha. rewrite Hz in Ha.
    exists (("zone " +:+ DdnsApi.ZONE zone_env)
            :: flat_map
                 (name_directives RECORD_TTL (Api.RecordType_value record_type)
                    (Api.is_update method) v)
                 (List.map (fqdn_of (DdnsApi.ZONE zone_env)) host)
            ++ ["send"]).
    split; [exact Ha|]. split; [|done].
    destruct (Api.is_update method) eqn:Hm.
    + by rewrite (Hv eq_refl).
    + unfold transaction_lines in Hd. rewrite delete_lines in Hd. by rewrite delete_lines.
  - left. split.
    + exists e. by apply update_record_rejects.
    + exists failure. by apply ddns_get_refuses.
Qed.

Lemma implementations_agree_example :
  exists body : list string,
    files (Api.update_record "example.com" "3600" "/tmp" ipv4_literal (tool_exits 0)
             peer Api.TXT Api.update ["foo"; "bar"] (Some "hello") empty_world).2
      !! "/tmp/nsupdate.txt" = Some (unlines ("server 127.0.0.1" :: body))
    /\ files (DdnsApi.get "example.com" "3600" "/tmp" ipv4_literal (tool_exits 0)
                (as_ddns_request peer ["foo"; "bar"] (Some "hello"))
                "TXT" "update" empty_world).2
         !! "/tmp/nsupdate.txt" = Some (unlines ("server localhost" :: body)).
Proof.
  destruct (implementations_agree_after_server_line
              "example.com" "3600" "/tmp" ipv4_literal (tool_exits 0)
              peer Api.TXT Api.update ["foo"; "bar"] (Some "hello") empty_world)
    as [[[e He] _]|(body & [Ha _] & [Hd _] & _)].
  - discriminate.
  - by repeat constructor.
  - reflexivity.
  - reflexivity.
  - rewrite update_record_unfold in He. discriminate He.
  - exists body. split.
    + rewrite Ha. apply lookup_insert_eq.
    + change (Api.MethodType_value Api.update) with "update" in Hd.
      change (Api.RecordType_value Api.TXT) with "TXT" in Hd.
      rewrite Hd. apply lookup_insert_eq.
Defined.

(** C10, as stated, fails: on the same request the two implementations
    write update files that differ in the server line, and answer with
    different messages. *)
Lemma implementations_differ :
  files (Api.update_record "example.com" "3600" "/tmp" ipv4_literal (tool_exits 0)
           peer Api.A Api.update ["foo"] (Some "10.0.0.5") empty_world).2
    !! "/tmp/nsupdate.txt"
  = Some (unlines [ "server 127.0.0.1"; "zone example.com";
                    "update delete foo.example.com A";
                    "update add foo.example.com 3600 A 10.0.0.5"; "send" ])
  /\ files (DdnsApi.get "example.com" "3600" "/tmp" ipv4_literal (tool_exits 0)
              (as_ddns_request peer ["foo"] (Some "10.0.0.5")) "A" "update" empty_world).2
       !! "/tmp/nsupdate.txt"
     = Some (unlines [ "server localhost"; "zone example.com";
                       "update delete foo.example.com A";
                       "update add foo.example.com 3600 A 10.0.0.5"; "send" ])
  /\ (Api.update_record "example.com" "3600" "/tmp" ipv4_literal (tool_exits 0)
        peer Api.A Api.update ["foo"] (Some "10.0.0.5") empty_world).1
     = Api.Return (Api.mkApiResponse true "Updated record: ['foo'] A 10.0.0.5")
  /\ (DdnsApi.get "example.com" "3600" "/tmp" ipv4_literal (tool_exits 0)
        (as_ddns_request peer ["foo"] (Some "10.0.0.5")) "A" "update" empty_world).1
     = DdnsApi.Returned
         (DdnsApi.mkDict true "Updated record: ['foo.example.com'] A 10.0.0.5")
  /\ files (Api.update_record "example.com" "3600" "/tmp" ipv4_literal (tool_exits 0)
              peer Api.A Api.update ["foo"] (Some "10.0.0.5") empty_world).2
       !! "/tmp/nsupdate.txt"
     <> files (DdnsApi.get "example.com" "3600" "/tmp" ipv4_literal (tool_exits 0)
                 (as_ddns_request peer ["foo"] (Some "10.0.0.5")) "A" "update"
                 empty_world).2
          !! "/tmp/nsupdate.txt".
Proof.
  rewrite !update_record_unfold.
  split; [reflexivity|]. split; [reflexivity|]. split; [reflexivity|].
  split; [reflexivity|]. intros H. vm_compute in H. discriminate H.
Qed.

(** ** Requests in flight together *)









(** The actions of the executor are what the handler does to the world: run
    alone, they write the file the handler writes and give the tool the
    transaction the handler gives it. *)
Lemma executor_alone (fs : gmap string string) (update_file file_content : string) :
  Concurrent.pfiles
    (Concurrent.run [0; 0]%nat
       (Concurrent.mkPool fs [Concurrent.executor update_file file_content] []))
  = <[update_file := file_content]> fs
  /\ Concurrent.seen
       (Concurrent.run [0; 0]%nat
          (Concurrent.mkPool fs [Concurrent.executor update_file file_content] []))
     = [(0%nat, Some file_content)].
Proof.
  split; [reflexivity|]. simpl. unfold Concurrent.advance. simpl.
  by rewrite lookup_insert_eq.
Qed.



(** In [src/ddns-api/api.py] the value of an A request without value is the
    content of the reverse-proxy header when there is one, and the peer
    address otherwise. *)
Lemma ddns_a_without_value (ip_address : string -> bool) (request : DdnsApi.Request)
    (method : string) :
  DdnsApi.prepare_value ip_address request "A" method EmptyString
  = inl (match DdnsApi.x_real_ip request with
         | Some addr => addr
         | None => DdnsApi.remote_addr request
         end).
Proof. reflexivity. Qed.

(** * Further properties of the handlers *)

(** ** Stripping *)

Lemma lstrip_first (p : ascii -> bool) (s : string) (c : ascii) :
  first_char (Py.lstrip p s) = Some c -> p c = false.
Proof.
  induction s as [|x s IH]; [done|].
  simpl. destruct (p x) eqn:Hx; [exact IH|]. by intros [= <-].
Qed.

Lemma rstrip_first (p : ascii -> bool) (s : string) (c : ascii) :
  first_char (Py.rstrip p s) = Some c -> first_char s = Some c.
Proof.
  destruct s as [|x s]; [done|].
  simpl. destruct (Py.rstrip p s); [by destruct (p x)|done].
Qed.

Lemma rstrip_last (p : ascii -> bool) (s : string) (c : ascii) :
  last_char (Py.rstrip p s) = Some c -> p c = false.
Proof.
  induction s as [|x s IH]; [done|].
  simpl. destruct (Py.rstrip p s) as [|y r] eqn:Hr.
  - destruct (p x) eqn:Hx; [done|]. by intros [= <-].
  - exact IH.
Qed.

Lemma strip_is_stripped (p : ascii -> bool) (s : string) : stripped p (Py.strip p s).
Proof.
  split; intros c Hc.
  - eapply lstrip_first, rstrip_first, Hc.
  - eapply rstrip_last, Hc.
Qed.

Lemma rstrip_stripped (p : ascii -> bool) (s : string) :
  (forall c, last_char s = Some c -> p c = false) -> Py.rstrip p s = s.
Proof.
  induction s as [|x s IH]; [done|].
  intros Hlast. simpl. destruct s as [|y s].
  - simpl. by rewrite (Hlast x eq_refl).
  - rewrite IH; [done|]. intros c Hc. by apply Hlast.
Qed.

Lemma strip_stripped (p : ascii -> bool) (s : string) : stripped p s -> Py.strip p s = s.
Proof.
  intros [Hfirst Hlast]. unfold Py.strip.
  assert (Hl : Py.lstrip p s = s).
  { destruct s as [|x s]; [done|]. simpl. by rewrite (Hfirst x eq_refl). }
  rewrite Hl. by apply rstrip_stripped.
Qed.

Lemma strip_idempotent (p : ascii -> bool) (s : string) :
  Py.strip p (Py.strip p s) = Py.strip p s.
Proof. apply strip_stripped, strip_is_stripped. Qed.

Lemma rstrip_app_char (p : ascii -> bool) (s : string) (c : ascii) :
  p c = true -> Py.rstrip p (s +:+ String c EmptyString) = Py.rstrip p s.
Proof.
  intros Hc. induction s as [|x s IH].
  - change (EmptyString +:+ String c EmptyString) with (String c EmptyString).
    simpl. by rewrite Hc.
  - rewrite sapp_cons. simpl. by rewrite IH.
Qed.

Lemma strip_app_char (p : ascii -> bool) (s : string) (c : ascii) :
  p c = true -> Py.strip p (s +:+ String c EmptyString) = Py.strip p s.
Proof.
  intros Hc. unfold Py.strip. induction s as [|x s IH].
  - change (EmptyString +:+ String c EmptyString) with (String c EmptyString).
    simpl. by rewrite Hc.
  - rewrite sapp_cons. simpl. destruct (p x); [exact IH|].
    change (String x (s +:+ String c EmptyString))
      with (String x s +:+ String c EmptyString).
    by apply rstrip_app_char.
Qed.

Lemma strip_value_stable (value : option string) :
  Api.strip_value (Some (Api.strip_value value)) = Api.strip_value value.
Proof.
  unfold Api.strip_value at 1.
  destruct (Py.truthy (Api.strip_value value)) eqn:Ht.
  - unfold Api.strip_value. destruct value as [v|]; [|done].
    destruct (Py.truthy v); [|done]. apply strip_idempotent.
  - by destruct (Api.strip_value value).
Qed.

(** X1.  The value [update_record] works on has no space, double quote or
    single quote at either end, and a request whose value is already in
    this form is handled exactly like the request it was stripped from:
    same answer, same file, same tool invocation. *)
Theorem stripped_value_is_handled_alike
    (zone_env RECORD_TTL gettempdir : string) (ip_address : string -> bool)
    (subprocess_exec : list string -> gmap string string -> Proc)
    (request : Api.Request) (record_type : Api.RecordType) (method : Api.MethodType)
    (host : list string) (value : option string) (w : World) :
  stripped value_strip_char (Api.strip_value value)
  /\ Api.update_record zone_env RECORD_TTL gettempdir ip_address subprocess_exec
       request record_type method host (Some (Api.strip_value value)) w
     = Api.update_record zone_env RECORD_TTL gettempdir ip_address subprocess_exec
         request record_type method host value w.
Proof.
  split.
  - unfold Api.strip_value. destruct value as [v|]; [|done].
    destruct (Py.truthy v); [|done]. apply strip_is_stripped.
  - by rewrite !update_record_unfold, strip_value_stable.
Qed.

(** X2.  The zone of [src/api.py] has no dot and no space at either end,
    and dots around the configured zone make no difference to the update
    file: a leading and a trailing dot are both dropped. *)
Theorem zone_dots_are_dropped
    (zone_env RECORD_TTL : string) (record_type : Api.RecordType)
    (method : Api.MethodType) (host : list string) (record_value : string) :
  stripped zone_strip_char (Api.ZONE zone_env)
  /\ Api.ZONE (String DOT zone_env +:+ ".") = Api.ZONE zone_env
  /\ Api.file_content (String DOT zone_env +:+ ".") RECORD_TTL record_type method host
       record_value
     = Api.file_content zone_env RECORD_TTL record_type method host record_value.
Proof.
  assert (Hz : Api.ZONE (String DOT zone_env +:+ ".") = Api.ZONE zone_env).
  { unfold Api.ZONE. rewrite (strip_app_char _ _ DOT) by done. reflexivity. }
  split; [apply strip_is_stripped|]. split; [exact Hz|].
  unfold Api.file_content. by rewrite Hz.
Qed.

(** ** Host names *)

Lemma split_app_sep (sep : ascii) (a b : string) :
  Py.split sep (a +:+ String sep b) = Py.split sep a ++ Py.split sep b.
Proof.
  induction a as [|c a IH].
  - change (EmptyString +:+ String sep b) with (String sep b).
    simpl. by rewrite Ascii.eqb_refl.
  - rewrite sapp_cons. cbn [Py.split]. rewrite IH.
    destruct (Ascii.eqb c sep); [done|].
    destruct (Py.split sep a) as [|w ws] eqn:Ha; [by apply split_not_nil in Ha|done].
Qed.

Lemma join_cons_char (sep : string) (c : ascii) (w : string) (ws : list string) :
  Py.join sep (String c w :: ws) = String c (Py.join sep (w :: ws)).
Proof. by destruct ws. Qed.

(** Joining the pieces of a split gives the string back. *)
Lemma join_split (sep : ascii) (s : string) :
  Py.join (String sep EmptyString) (Py.split sep s) = s.
Proof.
  induction s as [|c s IH]; [done|].
  cbn [Py.split]. destruct (Ascii.eqb c sep) eqn:Hc.
  - apply Ascii.eqb_eq in Hc as ->.
    destruct (Py.split sep s) as [|w ws] eqn:Hs; [by apply split_not_nil in Hs|].
    change (Py.join (String sep EmptyString) (EmptyString :: w :: ws))
      with (String sep (Py.join (String sep EmptyString) (w :: ws))).
    by rewrite IH.
  - destruct (Py.split sep s) as [|w ws] eqn:Hs; [by apply split_not_nil in Hs|].
    by rewrite join_cons_char, IH.
Qed.

Lemma label_char_not_dot (c : ascii) :
  Api.label_char c = true -> negb (Ascii.eqb c DOT) = true.
Proof. destruct c as [[] [] [] [] [] [] [] []]; vm_compute; congruence. Qed.

(** X3.  A string passes the [HostType] validation exactly when it is a
    non-empty sequence of labels joined by dots, a label being a non-empty
    run of letters, digits and hyphens that starts and ends with a letter
    or a digit. *)
Theorem HostType_is_dotted_labels (h : string) :
  Api.HostType h = true
  <-> exists labels : list string,
        labels <> []
        /\ Forall (fun l => Api.is_label l = true) labels
        /\ h = Py.join "." labels.
Proof.
  split.
  - intros Hh. exists (Py.split DOT h). split; [apply split_not_nil|]. split.
    + apply Forall_forall. intros l Hl%list_elem_of_In.
      unfold Api.HostType in Hh. rewrite forallb_forall in Hh. by apply Hh.
    + symmetry. apply join_split.
  - intros (labels & Hne & Hl & ->). unfold Api.HostType.
    change "." with (String DOT EmptyString). rewrite split_join; [|done|].
    + apply forallb_forall. intros l Hin%list_elem_of_In.
      rewrite Forall_forall in Hl. by apply Hl.
    + eapply Forall_impl; [exact Hl|]. intros l Hlabel. simpl.
      eapply all_impl; [apply label_char_not_dot|]. by apply is_label_chars.
Qed.

(** X4.  The name written for a host is the host, a dot and the zone; it
    is a valid name exactly when the host and the zone both are. *)
Theorem fqdn_valid_iff (zone h : string) :
  Api.HostType (fqdn_of zone h) = Api.HostType h && Api.HostType zone.
Proof.
  unfold Api.HostType, fqdn_of. change ("." +:+ zone) with (String DOT zone).
  by rewrite split_app_sep, forallb_app.
Qed.

Lemma ends_alnum_last (s : string) :
  Api.ends_alnum s = true ->
  exists c, last_char s = Some c /\ Py.isalnum c = true.
Proof.
  induction s as [|x s IH]; [done|].
  destruct s as [|y s]; [by exists x|]. exact IH.
Qed.

Lemma last_piece_ends (s : string) :
  Api.ends_alnum (List.last (Py.split DOT s) EmptyString) = true ->
  Api.ends_alnum s = true.
Proof.
  induction s as [|c s IH]; [done|].
  cbn [Py.split]. destruct (Ascii.eqb c DOT) eqn:Hc.
  - destruct (Py.split DOT s) as [|w ws] eqn:Hs; [by apply split_not_nil in Hs|].
    change (List.last (EmptyString :: w :: ws) EmptyString)
      with (List.last (w :: ws) EmptyString).
    intros H%IH. by destruct s.
  - destruct (Py.split DOT s) as [|w ws] eqn:Hs; [by apply split_not_nil in Hs|].
    destruct ws as [|w' ws].
    + assert (Hw : w = s).
      { pose proof (join_split DOT s) as Hj. by rewrite Hs in Hj. }
      by subst w.
    + change (List.last (String c w :: w' :: ws) EmptyString)
        with (List.last (w :: w' :: ws) EmptyString).
      intros H%IH. by destruct s.
Qed.

Lemma forallb_last {X : Type} (f : X -> bool) (l : list X) (d : X) :
  l <> [] -> forallb f l = true -> f (List.last l d) = true.
Proof.
  induction l as [|x l IH]; [done|]. intros _.
  cbn [forallb]. intros [Hx Hl]%andb_prop.
  destruct l as [|y l]; [done|]. by apply IH.
Qed.

(** X5.  A validated host is not empty, it starts with a letter or a digit
    and ends with one: never with a dot, a hyphen or white space. *)
Theorem HostType_ends (h : string) :
  Api.HostType h = true ->
  (exists c, first_char h = Some c /\ Py.isalnum c = true)
  /\ (exists c, last_char h = Some c /\ Py.isalnum c = true).
Proof.
  intros Hh. split.
  - unfold Api.HostType in Hh. destruct h as [|c h]; [done|].
    exists c. split; [done|]. revert Hh. cbn [Py.split].
    destruct (Ascii.eqb c DOT); [done|].
    destruct (Py.split DOT h) as [|w ws]; cbn [forallb Api.is_label];
      by intros [[[Hc _]%andb_prop _]%andb_prop _]%andb_prop.
  - apply ends_alnum_last, last_piece_ends.
    assert (Hl : Api.is_label (List.last (Py.split DOT h) EmptyString) = true)
      by (apply forallb_last; [apply split_not_nil|exact Hh]).
    destruct (List.last (Py.split DOT h) EmptyString) as [|c l]; [done|].
    unfold Api.is_label in Hl. by apply andb_prop in Hl as [_ Hl].
Qed.

Lemma HostType_ends_example :
  (exists c, first_char "foo.bar-1" = Some c /\ Py.isalnum c = true)
  /\ (exists c, last_char "foo.bar-1" = Some c /\ Py.isalnum c = true).
Proof. apply (HostType_ends "foo.bar-1"). reflexivity. Defined.

(** ** Answers of [update_record] *)

Lemma api_answer_exit_status (proc1 proc2 : Proc) (message : string) :
  exit_status proc1 = exit_status proc2 ->
  api_answer proc1 message = api_answer proc2 message.
Proof. destruct proc1, proc2; simpl; try done. by intros [= ->]. Qed.

(** X6.  What the tool prints never reaches the caller or the files: two
    tools that agree, on every command and files, on whether they start and
    on their exit status give the same answer and the same world, whatever
    they write on their output streams. *)
Theorem answer_depends_on_exit_status_only
    (zone_env RECORD_TTL gettempdir : string) (ip_address : string -> bool)
    (tool1 tool2 : list string -> gmap string string -> Proc)
    (request : Api.Request) (record_type : Api.RecordType) (method : Api.MethodType)
    (host : list string) (value : option string) (w : World) :
  (forall command fs, exit_status (tool1 command fs) = exit_status (tool2 command fs)) ->
  Api.update_record zone_env RECORD_TTL gettempdir ip_address tool1
    request record_type method host value w
  = Api.update_record zone_env RECORD_TTL gettempdir ip_address tool2
      request record_type method host value w.
Proof.
  intros Hexit. rewrite !update_record_unfold.
  destruct (resolved _ _ _ _ _) as [record_value|e]; [|done].
  cbv zeta. f_equal. apply api_answer_exit_status, Hexit.
Qed.

Lemma answer_depends_on_exit_status_only_example :
  Api.update_record "example.com" "3600" "/tmp" ipv4_literal (tool_echo 2)
    peer Api.A Api.update ["foo"] (Some "10.0.0.5") empty_world
  = Api.update_record "example.com" "3600" "/tmp" ipv4_literal (tool_exits 2)
      peer Api.A Api.update ["foo"] (Some "10.0.0.5") empty_world.
Proof.
  apply (answer_depends_on_exit_status_only
           "example.com" "3600" "/tmp" ipv4_literal (tool_echo 2) (tool_exits 2)
           peer Api.A Api.update ["foo"] (Some "10.0.0.5") empty_world).
  reflexivity.
Defined.

(** X7.  [update_record] returns a response exactly when the request passes
    the validation and the tool, started on the file just written, exits
    with status zero; the response then has [success] true and the message
    of the request.  The handler never returns a response with [success]
    false: every failure is an exception. *)
Theorem returns_iff_accepted_and_exit_zero
    (zone_env RECORD_TTL gettempdir : string) (ip_address : string -> bool)
    (subprocess_exec : list string -> gmap string string -> Proc)
    (request : Api.Request) (record_type : Api.RecordType) (method : Api.MethodType)
    (host : list string) (value : option string) (w : World)
    (response : Api.ApiResponse) :
  (Api.update_record zone_env RECORD_TTL gettempdir ip_address subprocess_exec
     request record_type method host value w).1 = Api.Return response
  <-> exists record_value : string,
        Api.record_value_for ip_address request record_type method
          (Api.strip_value value) w = (Api.Return record_value, w)
        /\ exit_status
             (subprocess_exec [NSUPDATE; Api.update_file gettempdir]
                (<[Api.update_file gettempdir :=
                     Api.file_content zone_env RECORD_TTL record_type method host
                       record_value]> (files w)))
           = Some 0
        /\ response
           = Api.mkApiResponse true
               (Api.response_message record_type method host record_value).
Proof.
  rewrite update_record_unfold.
  destruct (resolved ip_address request record_type method (Api.strip_value value))
    as [record_value|e] eqn:Hres.
  - cbv zeta. cbn [fst]. split.
    + intros Hret. exists record_value.
      split; [by rewrite record_value_for_resolved, Hres|].
      destruct (subprocess_exec _ _) as [|rc out err]; [done|].
      simpl in *. destruct (rc =? 0) eqn:Hrc; [|done].
      apply Z.eqb_eq in Hrc as ->. split; [done|]. by injection Hret as <-.
    + intros (rv & Hrv & Hexit & ->).
      rewrite record_value_for_resolved, Hres in Hrv. injection Hrv as <-.
      destruct (subprocess_exec _ _) as [|rc out err]; [done|].
      simpl in *. by injection Hexit as ->.
  - cbn [fst]. split; [done|].
    intros (rv & Hrv & _). rewrite record_value_for_resolved, Hres in Hrv. done.
Qed.

(** X8.  An A request, update or delete, whose value is not empty once
    stripped and is not an address is refused with status 400 before
    anything is built: no file is written and the tool is not started. *)
Theorem invalid_address_is_refused
    (zone_env RECORD_TTL gettempdir : string) (ip_address : string -> bool)
    (subprocess_exec : list string -> gmap string string -> Proc)
    (request : Api.Request) (method : Api.MethodType)
    (host : list string) (value : option string) (w : World) :
  Py.truthy (Api.strip_value value) = true ->
  ip_address (Api.strip_value value) = false ->
  Api.update_record zone_env RECORD_TTL gettempdir ip_address subprocess_exec
    request Api.A method host value w
  = (Api.Raise (Api.mkHTTPException 400 "Value for A record is not a valid IP"), w).
Proof.
  intros Hv Hip. apply update_record_rejects.
  unfold resolved, Api.record_value_for, Api.is_valid_ip. by rewrite Hv, Hip.
Qed.

Lemma invalid_address_is_refused_example :
  Api.update_record "example.com" "3600" "/tmp" ipv4_literal (tool_exits 0)
    peer Api.A Api.update ["foo"] (Some "not-an-ip") empty_world
  = (Api.Raise (Api.mkHTTPException 400 "Value for A record is not a valid IP"),
     empty_world).
Proof.
  apply (invalid_address_is_refused
           "example.com" "3600" "/tmp" ipv4_literal (tool_exits 0)
           peer Api.update ["foo"] (Some "not-an-ip") empty_world); reflexivity.
Defined.

(** X9.  [update_record] touches one file only: every file other than the
    update file is after the request what it was before, whatever the
    request and whatever the tool does; and the record of earlier tool
    invocations is kept. *)
Theorem other_files_are_untouched
    (zone_env RECORD_TTL gettempdir : string) (ip_address : string -> bool)
    (subprocess_exec : list string -> gmap string string -> Proc)
    (request : Api.Request) (record_type : Api.RecordType) (method : Api.MethodType)
    (host : list string) (value : option string) (w : World) (path : string) :
  path <> Api.update_file gettempdir ->
  files (Api.update_record zone_env RECORD_TTL gettempdir ip_address subprocess_exec
           request record_type method host value w).2 !! path
  = files w !! path
  /\ runs w
     `prefix_of` runs (Api.update_record zone_env RECORD_TTL gettempdir ip_address
                         subprocess_exec request record_type method host value w).2.
Proof.
  intros Hpath. rewrite update_record_unfold.
  destruct (resolved _ _ _ _ _) as [record_value|e]; [|done].
  cbv zeta. cbn [snd files runs]. split.
  - by rewrite lookup_insert_ne.
  - by apply prefix_app_r.
Qed.

Lemma other_files_are_untouched_example :
  files (Api.update_record "example.com" "3600" "/tmp" ipv4_literal (tool_exits 0)
           peer Api.A Api.update ["foo"] (Some "10.0.0.5")
           (mkWorld {[ "/etc/named.conf" := "options" ]} [])).2
    !! "/etc/named.conf"
  = Some "options".
Proof.
  destruct (other_files_are_untouched
              "example.com" "3600" "/tmp" ipv4_literal (tool_exits 0)
              peer Api.A Api.update ["foo"] (Some "10.0.0.5")
              (mkWorld {[ "/etc/named.conf" := "options" ]} []) "/etc/named.conf")
    as [Hfile _]; [discriminate|].
  rewrite Hfile. reflexivity.
Defined.

(** X10.  Two accepted requests handled one after the other: the tool of
    each is started on the transaction of its own request, in the order of
    the requests, and the update file ends holding the transaction of the
    second, the first being overwritten. *)
Theorem requests_in_sequence
    (zone_env RECORD_TTL gettempdir : string) (ip_address : string -> bool)
    (subprocess_exec : list string -> gmap string string -> Proc)
    (request1 request2 : Api.Request) (type1 type2 : Api.RecordType)
    (method1 method2 : Api.MethodType) (host1 host2 : list string)
    (value1 value2 : option string) (w : World) (v1 v2 : string) :
  Api.record_value_for ip_address request1 type1 method1 (Api.strip_value value1) w
    = (Api.Return v1, w) ->
  Api.record_value_for ip_address request2 type2 method2 (Api.strip_value value2) w
    = (Api.Return v2, w) ->
  files
    (Api.update_record zone_env RECORD_TTL gettempdir ip_address subprocess_exec
       request2 type2 method2 host2 value2
       (Api.update_record zone_env RECORD_TTL gettempdir ip_address subprocess_exec
          request1 type1 method1 host1 value1 w).2).2
  = <[Api.update_file gettempdir :=
        Api.file_content zone_env RECORD_TTL type2 method2 host2 v2]> (files w)
  /\ runs
       (Api.update_record zone_env RECORD_TTL gettempdir ip_address subprocess_exec
          request2 type2 method2 host2 value2
          (Api.update_record zone_env RECORD_TTL gettempdir ip_address subprocess_exec
             request1 type1 method1 host1 value1 w).2).2
     = runs w
       ++ [ ([NSUPDATE; Api.update_file gettempdir],
             Some (Api.file_content zone_env RECORD_TTL type1 method1 host1 v1));
            ([NSUPDATE; Api.update_file gettempdir],
             Some (Api.file_content zone_env RECORD_TTL type2 method2 host2 v2)) ].
Proof.
  rewrite !record_value_for_resolved. intros [= H1] [= H2].
  rewrite !update_record_unfold, H1, H2. cbv zeta. cbn [snd files runs]. split.
  - apply insert_insert_eq.
  - by rewrite <- app_assoc.
Qed.

Lemma requests_in_sequence_example :
  files
    (Api.update_record "example.com" "3600" "/tmp" ipv4_literal (tool_exits 0)
       peer Api.A Api.update ["bar"] (Some "10.0.0.6")
       (Api.update_record "example.com" "3600" "/tmp" ipv4_literal (tool_exits 0)
          peer Api.A Api.update ["foo"] (Some "10.0.0.5") empty_world).2).2
    !! "/tmp/nsupdate.txt"
  = Some second_transaction.
Proof.
  destruct (requests_in_sequence
              "example.com" "3600" "/tmp" ipv4_literal (tool_exits 0)
              peer peer Api.A Api.A Api.update Api.update ["foo"] ["bar"]
              (Some "10.0.0.5") (Some "10.0.0.6") empty_world "10.0.0.5" "10.0.0.6")
    as [Hfiles _]; [reflexivity..|].
  rewrite Hfiles. apply lookup_insert_eq.
Defined.

(** ** The literal of a TXT value *)






(** ** Credentials *)

Lemma verify_equal (AUTH_USER AUTH_PASS username password : string) :
  DdnsApi.verify AUTH_USER AUTH_PASS username password = true ->
  username = AUTH_USER /\ password = AUTH_PASS.
Proof.
  unfold DdnsApi.verify.
  destruct (negb (Py.truthy username && Py.truthy password)); [done|].
  destruct (negb (Py.truthy AUTH_USER) || negb (Py.truthy AUTH_PASS)); [done|].
  destruct (String.eqb_spec username AUTH_USER) as [->|]; [|done].
  by destruct (String.eqb_spec password AUTH_PASS) as [->|].
Qed.

(** X12.  [verify] of [src/ddns-api/api.py] accepts a user name and a
    password exactly when they are the configured ones and none of the two
    is empty: with an empty configured user name or password nobody is
    let in, and empty credentials are never accepted. *)
Theorem verify_accepts_iff (AUTH_USER AUTH_PASS username password : string) :
  DdnsApi.verify AUTH_USER AUTH_PASS username password = true
  <-> username = AUTH_USER /\ password = AUTH_PASS
      /\ username <> EmptyString /\ password <> EmptyString.
Proof.
  split.
  - intros Hv. destruct (verify_equal _ _ _ _ Hv) as [-> ->].
    split; [done|]. split; [done|]. revert Hv. unfold DdnsApi.verify.
    destruct AUTH_USER; [done|]. by destruct AUTH_PASS.
  - intros (-> & -> & Hu & Hp). unfold DdnsApi.verify.
    destruct AUTH_USER as [|a u]; [done|]. destruct AUTH_PASS as [|b p]; [done|].
    cbn [Py.truthy andb orb negb]. by rewrite !String.eqb_refl.
Qed.

(** X13.  [get_current_username] of [src/api.py] lets in exactly the
    credentials equal to the configured ones and answers every other pair
    with status 401 and a Basic challenge; so whoever [verify] of
    [src/ddns-api/api.py] accepts it accepts too, under the same
    configuration, and it returns the user name presented. *)
Theorem get_current_username_accepts_iff
    (AUTH_USER AUTH_PASS : string) (credentials : Api.HTTPBasicCredentials) :
  (Api.get_current_username AUTH_USER AUTH_PASS credentials
   = Api.Authenticated (Api.username credentials)
   <-> Api.username credentials = AUTH_USER /\ Api.password credentials = AUTH_PASS)
  /\ (Api.get_current_username AUTH_USER AUTH_PASS credentials
      = Api.Authenticated (Api.username credentials)
      \/ Api.get_current_username AUTH_USER AUTH_PASS credentials
         = Api.Unauthorized
             (Api.mkHTTPException 401 "Incorrect username or password")
             [("WWW-Authenticate", "Basic")])
  /\ (DdnsApi.verify AUTH_USER AUTH_PASS
        (Api.username credentials) (Api.password credentials) = true ->
      Api.get_current_username AUTH_USER AUTH_PASS credentials
      = Api.Authenticated (Api.username credentials)).
Proof.
  unfold Api.get_current_username, Api.compare_digest.
  destruct (String.eqb_spec (Api.username credentials) AUTH_USER) as [Hu|Hu];
    destruct (String.eqb_spec (Api.password credentials) AUTH_PASS) as [Hp|Hp];
    cbn [andb negb].
  - split; [done|]. split; [by left|done].
  - split; [split; [done|by intros [_ ?]]|]. split; [by right|].
    by intros [_ ?]%verify_equal.
  - split; [split; [done|by intros [? _]]|]. split; [by right|].
    by intros [? _]%verify_equal.
  - split; [split; [done|by intros [? _]]|]. split; [by right|].
    by intros [? _]%verify_equal.
Qed.

(** ** The handler of [src/ddns-api/api.py] *)

(** X14.  Every request to [ResourceHandler.get] ends in one of two ways.
    Either it is refused with one of the five validation messages, in a
    dictionary with [success] false, and nothing is written or started; or
    the update file is written, the tool is started once on it, the file is
    still there afterwards, and the answer follows the tool: a message with
    [success] true on exit status zero, the failure Error updating zone on
    any other status, and an exception leaving the handler when the tool
    cannot be started. *)
Theorem ddns_get_refuses_or_builds
    (zone_env RECORD_TTL gettempdir : string) (ip_address : string -> bool)
    (subprocess_exec : list string -> gmap string string -> Proc)
    (request : DdnsApi.Request) (record_type method : string) (w : World) :
  (exists failure : string,
     In failure ddns_refusals
     /\ DdnsApi.get zone_env RECORD_TTL gettempdir ip_address subprocess_exec
          request record_type method w
        = (DdnsApi.Returned (DdnsApi.mkDict false failure), w))
  \/ (exists content message : string,
        builds w
          (DdnsApi.get zone_env RECORD_TTL gettempdir ip_address subprocess_exec
             request record_type method w).2
          (DdnsApi.update_filename gettempdir) content
        /\ files
             (DdnsApi.get zone_env RECORD_TTL gettempdir ip_address subprocess_exec
                request record_type method w).2
             !! DdnsApi.update_filename gettempdir = Some content
        /\ (DdnsApi.get zone_env RECORD_TTL gettempdir ip_address subprocess_exec
              request record_type method w).1
           = ddns_answer
               (subprocess_exec [NSUPDATE; DdnsApi.update_filename gettempdir]
                  (<[DdnsApi.update_filename gettempdir := content]> (files w)))
               message).
Proof.
  unfold DdnsApi.get.
  set (rt := Py.strip Py.isspace (Py.upper record_type)).
  set (m := Py.strip Py.isspace (Py.lower method)).
  destruct (negb (String.eqb rt "A" || String.eqb rt "TXT")).
  { left. eexists. split; [|reflexivity]. simpl. tauto. }
  destruct (negb (String.eqb m "update" || String.eqb m "delete")).
  { left. eexists. split; [|reflexivity]. simpl. tauto. }
  destruct (DdnsApi.prepare_hosts _ _) as [|h hosts] eqn:Hh.
  { left. eexists. split; [|reflexivity]. simpl. tauto. }
  destruct (DdnsApi.prepare_value _ _ _ _ _) as [value|failure] eqn:Hv.
  - right.
    exists (DdnsApi.file_content zone_env RECORD_TTL rt m (h :: hosts) value).
    exists (if String.eqb m "delete" then
              "Deleted record: " +:+ Py.repr_list (h :: hosts) +:+ " " +:+ rt
            else
              "Updated record: " +:+ Py.repr_list (h :: hosts) +:+ " " +:+ rt
                +:+ " " +:+ value).
    cbv zeta. cbn [files runs]. rewrite lookup_insert_eq.
    destruct (subprocess_exec _ _) as [|rc out err];
      [|destruct (negb (rc =? 0)) eqn:Hrc];
      cbn [fst snd files runs ddns_answer]; rewrite ?lookup_insert_eq, ?Hrc;
      (split; [by split|]); (split; reflexivity).
  - left. exists failure. split; [|reflexivity].
    revert Hv. unfold DdnsApi.prepare_value.
    destruct (String.eqb rt "A").
    + destruct (Py.truthy _); [|done].
      destruct (negb _); [|done]. intros [= <-]. simpl. tauto.
    + destruct (String.eqb rt "TXT"); [|done].
      destruct (_ && _); [|done]. intros [= <-]. simpl. tauto.
Qed.

Lemma upper_idempotent (s : string) : Py.upper (Py.upper s) = Py.upper s.
Proof.
  induction s as [|c s IH]; [done|].
  unfold Py.upper in *. cbn [Py.map]. rewrite IH. f_equal.
  clear. destruct c as [[] [] [] [] [] [] [] []]; reflexivity.
Qed.

Lemma lower_idempotent (s : string) : Py.lower (Py.lower s) = Py.lower s.
Proof.
  induction s as [|c s IH]; [done|].
  unfold Py.lower in *. cbn [Py.map]. rewrite IH. f_equal.
  clear. destruct c as [[] [] [] [] [] [] [] []]; reflexivity.
Qed.

(** X15.  The record type and the method of the route are read without
    regard to case: a request is handled as the request with the record
    type in upper case and the method in lower case. *)
Theorem ddns_route_ignores_case
    (zone_env RECORD_TTL gettempdir : string) (ip_address : string -> bool)
    (subprocess_exec : list string -> gmap string string -> Proc)
    (request : DdnsApi.Request) (record_type method : string) (w : World) :
  DdnsApi.get zone_env RECORD_TTL gettempdir ip_address subprocess_exec
    request record_type method w
  = DdnsApi.get zone_env RECORD_TTL gettempdir ip_address subprocess_exec
      request (Py.upper record_type) (Py.lower method) w.
Proof. unfold DdnsApi.get. by rewrite upper_idempotent, lower_idempotent. Qed.

Lemma split_pieces (p : ascii -> bool) (sep : ascii) (s : string) :
  Py.all (fun c => p c || Ascii.eqb c sep) s = true ->
  forallb (Py.all p) (Py.split sep s) = true.
Proof.
  induction s as [|c s IH]; [done|].
  cbn [Py.all Py.split]. intros [Hc Hs]%andb_prop. specialize (IH Hs).
  destruct (Ascii.eqb c sep); [exact IH|].
  rewrite orb_false_r in Hc.
  destruct (Py.split sep s) as [|x xs]; cbn [forallb Py.all] in *; by rewrite Hc.
Qed.

Lemma strip_all (p : ascii -> bool) (s : string) :
  Py.all p s = true -> Py.strip p s = EmptyString.
Proof.
  intros H. unfold Py.strip.
  assert (Hl : Py.lstrip p s = EmptyString).
  { induction s as [|c s IH]; [done|].
    simpl in *. apply andb_prop in H as [Hc Hs]. rewrite Hc. by apply IH. }
  by rewrite Hl.
Qed.

Lemma all_lstrip (q p : ascii -> bool) (s : string) :
  Py.all q s = true -> Py.all q (Py.lstrip p s) = true.
Proof.
  induction s as [|x s IH]; [done|]. cbn [Py.lstrip].
  destruct (p x); [|done]. cbn [Py.all]. intros [_ Hs]%andb_prop. by apply IH.
Qed.

Lemma all_rstrip (q p : ascii -> bool) (s : string) :
  Py.all q s = true -> Py.all q (Py.rstrip p s) = true.
Proof.
  induction s as [|x s IH]; [done|]. cbn [Py.all Py.rstrip].
  intros [Hx Hs]%andb_prop. specialize (IH Hs).
  destruct (Py.rstrip p s) as [|y r].
  - destruct (p x); [done|]. cbn [Py.all]. by rewrite Hx.
  - cbn [Py.all] in *. by rewrite Hx, IH.
Qed.

Lemma blank_hosts_prepare (zone_env args_host : string) :
  blank_hosts args_host = true -> DdnsApi.prepare_hosts zone_env args_host = [].
Proof.
  intros Hb. unfold DdnsApi.prepare_hosts.
  apply split_pieces in Hb. induction (Py.split COMMA args_host) as [|x xs IH]; [done|].
  cbn [forallb] in Hb. apply andb_prop in Hb as [Hx Hxs].
  cbn [List.filter]. rewrite (strip_all _ _ Hx). cbn [Py.truthy]. by apply IH.
Qed.

(** X16.  A request for a known record type and method whose host argument
    is absent, empty, or made of commas and white space only is refused
    with the message Missing host value, and nothing is written or
    started. *)
Theorem ddns_missing_host
    (zone_env RECORD_TTL gettempdir : string) (ip_address : string -> bool)
    (subprocess_exec : list string -> gmap string string -> Proc)
    (request : DdnsApi.Request) (record_type : Api.RecordType)
    (method : Api.MethodType) (w : World) :
  blank_hosts (default EmptyString (DdnsApi.arg_host request)) = true ->
  DdnsApi.get zone_env RECORD_TTL gettempdir ip_address subprocess_exec
    request (Api.RecordType_value record_type) (Api.MethodType_value method) w
  = (DdnsApi.Returned (DdnsApi.mkDict false "Missing host value"), w).
Proof.
  intros Hb.
  assert (Hh : DdnsApi.prepare_hosts zone_env
                 (DdnsApi.parse_arg (DdnsApi.arg_host request)) = []).
  { apply blank_hosts_prepare. unfold DdnsApi.parse_arg.
    destruct (DdnsApi.arg_host request) as [raw|]; [|done].
    cbn [default] in Hb. unfold blank_hosts in *.
    destruct (Py.strip Py.isspace raw) as [|c s] eqn:Hs; [done|].
    rewrite <- Hs. clear Hs. unfold Py.strip.
    by apply all_rstrip, all_lstrip. }
  unfold DdnsApi.get.
  assert (Ht : Py.strip Py.isspace (Py.upper (Api.RecordType_value record_type))
               = Api.RecordType_value record_type) by by destruct record_type.
  assert (Hm : Py.strip Py.isspace (Py.lower (Api.MethodType_value method))
               = Api.MethodType_value method) by by destruct method.
  rewrite Ht, Hm, Hh. by destruct record_type, method.
Qed.

Lemma ddns_missing_host_example :
  DdnsApi.get "example.com" "3600" "/tmp" ipv4_literal (tool_exits 0)
    (DdnsApi.mkRequest (Some " , ,, ") (Some "10.0.0.5") None "192.0.2.7")
    "A" "update" empty_world
  = (DdnsApi.Returned (DdnsApi.mkDict false "Missing host value"), empty_world).
Proof.
  apply (ddns_missing_host "example.com" "3600" "/tmp" ipv4_literal (tool_exits 0)
           (DdnsApi.mkRequest (Some " , ,, ") (Some "10.0.0.5") None "192.0.2.7")
           Api.A Api.update empty_world).
  reflexivity.
Defined.








